(** * FraudPrevention: the content risk scoring engine

    A shallow embedding of [analyzeContent] and of the alert history kept by
    the [FraudPrevention] component, followed by the properties the
    specification states about them.

    Conventions of the embedding.
    - A JavaScript string is the list of its UTF-16 code units.
    - A JavaScript Number is an exact rational ([Q]): the weights, the
      thresholds and the confidence formula are decimal constants combined
      with [+], [*], [/] and [Math.min]; binary64 rounding is not modelled.
    - A regular expression literal keeps its source text; it is compiled to a
      small abstract syntax and run by a position-set matcher, so that
      [RegExp.prototype.test] is an executable boolean function.
    - [new URL(...)] belongs to the platform, not to the component: it is an
      operation of the class [URLParser]; a reference instance covers plain
      [http(s)://host[:port]/path?query#fragment] inputs.
    - [Date.now()], [Math.random()] and [new Date()] are read from a [Stamp]
      supplied by the environment with each evaluation. *)

From Stdlib Require Import List String Ascii Bool Arith NArith ZArith QArith
  Qminmax Qround Lia Lqa.
Import ListNotations.

Set Implicit Arguments.

(* ===================================================================== *)
(** ** JavaScript strings *)
(* ===================================================================== *)

Module JS.

Local Open Scope N_scope.

(** A UTF-16 code unit. *)
Definition cu := N.

Definition jsstring := list cu.

Definition cu_eqb (a b : cu) : bool := N.eqb a b.

Definition in_range (lo hi x : cu) : bool := (N.leb lo x && N.leb x hi)%bool.

(** The code units from [lo] to [hi], both included. *)
Definition range (lo hi : cu) : list cu :=
  map (fun k => (lo + N.of_nat k)%N) (seq 0%nat (N.to_nat (hi + 1 - lo))).

(** *** Source literals

    String literals of this file are UTF-8 byte sequences; [utf16] decodes
    them into code units (a code point above U+FFFF becomes a surrogate
    pair). *)

Definition byte_of (a : ascii) : N := N_of_ascii a.

Definition is_cont (b : N) : bool := in_range 128 191 b.

Fixpoint utf16_bytes (bs : list N) (fuel : nat) : jsstring :=
  match fuel with
  | O => []
  | S fuel' =>
    match bs with
    | [] => []
    | b0 :: r0 =>
      if N.ltb b0 128 then b0 :: utf16_bytes r0 fuel'
      else match r0 with
      | b1 :: r1 =>
        if (in_range 192 223 b0 && is_cont b1)%bool then
          ((b0 - 192) * 64 + (b1 - 128))%N :: utf16_bytes r1 fuel'
        else match r1 with
        | b2 :: r2 =>
          if (in_range 224 239 b0 && is_cont b1 && is_cont b2)%bool then
            ((b0 - 224) * 4096 + (b1 - 128) * 64 + (b2 - 128))%N
              :: utf16_bytes r2 fuel'
          else match r2 with
          | b3 :: r3 =>
            if (in_range 240 247 b0 && is_cont b1 && is_cont b2
                && is_cont b3)%bool then
              let cp := ((b0 - 240) * 262144 + (b1 - 128) * 4096
                         + (b2 - 128) * 64 + (b3 - 128))%N in
              let v := (cp - 65536)%N in
              (55296 + v / 1024)%N :: (56320 + v mod 1024)%N
                :: utf16_bytes r3 fuel'
            else 65533%N :: utf16_bytes r0 fuel'
          | [] => 65533%N :: utf16_bytes r0 fuel'
          end
        | [] => 65533%N :: utf16_bytes r0 fuel'
        end
      | [] => [65533%N]
      end
    end
  end.

Definition utf16 (s : string) : jsstring :=
  let bs := map byte_of (list_ascii_of_string s) in
  utf16_bytes bs (List.length bs).

(** *** Character classification *)

(** WhiteSpace and LineTerminator code units: what [\s] matches and what
    [String.prototype.trim] strips. *)
Definition isWhiteSpace (c : cu) : bool :=
  (in_range 9 13 c || cu_eqb c 32 || cu_eqb c 160 || cu_eqb c 5760
   || in_range 8192 8202 c || cu_eqb c 8232 || cu_eqb c 8233
   || cu_eqb c 8239 || cu_eqb c 8287 || cu_eqb c 12288
   || cu_eqb c 65279)%bool.

Definition whiteSpaceUnits : list cu :=
  range 9 13 ++ [32; 160; 5760] ++ range 8192 8202
    ++ [8232; 8233; 8239; 8287; 12288; 65279]%N.

Definition isLineTerminator (c : cu) : bool :=
  (cu_eqb c 10 || cu_eqb c 13 || cu_eqb c 8232 || cu_eqb c 8233)%bool.

Definition isDigit (c : cu) : bool := in_range 48 57 c.

(** The word characters of [\b]: [A-Za-z0-9_]. *)
Definition isWordChar (c : cu) : bool :=
  (in_range 97 122 c || in_range 65 90 c || isDigit c || cu_eqb c 95)%bool.

Definition isAscii (c : cu) : bool := N.ltb c 128.

(** *** Case mapping

    The simple case mappings of the letters of Basic Latin, Latin-1
    Supplement, Greek and Cyrillic (the blocks the patterns of the component
    mention), together with the code units elsewhere whose upper case is a
    letter of those blocks or whose lower case is a Basic Latin letter.
    Every other code unit is left unchanged; no pattern of the component
    can tell. *)

(** Upper cases outside the regular offsets: micro sign, y with diaeresis,
    final sigma, the Greek symbol variants, the combining and the
    standalone iota subscript, and the Cyrillic variant letters. *)
Definition upperSpecial : list (cu * cu) :=
  [ (181, 924); (255, 376); (962, 931);
    (976, 914); (977, 920); (981, 934); (982, 928); (1008, 922);
    (1009, 929); (1013, 917); (837, 921); (8126, 921);
    (7296, 1042); (7297, 1044); (7298, 1054); (7299, 1057); (7300, 1058);
    (7301, 1058); (7302, 1066) ].

Fixpoint lookup (c : cu) (table : list (cu * cu)) : option cu :=
  match table with
  | [] => None
  | (k, v) :: table' => if cu_eqb k c then Some v else lookup c table'
  end.

Definition toUpperUnit (c : cu) : cu :=
  if isAscii c then (if in_range 97 122 c then c - 32 else c)
  else
    match lookup c upperSpecial with
    | Some u => u
    | None =>
      if (in_range 224 254 c && negb (cu_eqb c 247))%bool then c - 32
      else if in_range 945 969 c then c - 32
      else if in_range 1072 1103 c then c - 32
      else if in_range 1104 1119 c then c - 80
      else c
    end.

(** The lower case of a code unit; that of the dotted capital I (304) takes
    two units, the Kelvin sign (8490) becomes [k]. *)
Definition toLowerUnit (c : cu) : list cu :=
  if in_range 65 90 c then [c + 32]
  else if (in_range 192 222 c && negb (cu_eqb c 215))%bool then [c + 32]
  else if cu_eqb c 304 then [105; 775]
  else if cu_eqb c 376 then [255]
  else if (in_range 913 939 c && negb (cu_eqb c 930))%bool then [c + 32]
  else if in_range 1040 1071 c then [c + 32]
  else if in_range 1024 1039 c then [c + 80]
  else if cu_eqb c 8490 then [107]
  else if cu_eqb c 8491 then [229]
  else [c].

(** [String.prototype.toLowerCase]. *)
Definition toLowerCase (s : jsstring) : jsstring := flat_map toLowerUnit s.

(** The [Canonicalize] operation of a case-insensitive pattern without the
    unicode flag: the upper case of the code unit, unless that would turn a
    code unit outside Basic Latin into a Basic Latin one. *)
Definition canonicalize (c : cu) : cu :=
  let u := toUpperUnit c in
  if (N.leb 128 c && N.ltb u 128)%bool then c else u.

(** *** String operations used by the component *)

Definition length (s : jsstring) : nat := List.length s.

Fixpoint startsWith (s p : jsstring) : bool :=
  match p, s with
  | [], _ => true
  | a :: p', b :: s' => (cu_eqb a b && startsWith s' p')%bool
  | _ :: _, [] => false
  end.

Definition endsWith (s p : jsstring) : bool := startsWith (rev s) (rev p).

(** [s.slice(0, n)]. *)
Definition slice0 (n : nat) (s : jsstring) : jsstring := firstn n s.

Fixpoint dropWhile (p : cu -> bool) (s : jsstring) : jsstring :=
  match s with
  | [] => []
  | c :: s' => if p c then dropWhile p s' else s
  end.

(** [String.prototype.trim]. *)
Definition trim (s : jsstring) : jsstring :=
  rev (dropWhile isWhiteSpace (rev (dropWhile isWhiteSpace s))).

(** Truthiness of a string: non-empty. *)
Definition truthy (s : jsstring) : bool :=
  match s with [] => false | _ :: _ => true end.

(** [s.split(sep).length] for a one-unit separator. *)
Definition splitCount (sep : cu) (s : jsstring) : nat :=
  S (List.length (filter (cu_eqb sep) s)).

End JS.

(* ===================================================================== *)
(** ** Regular expressions *)
(* ===================================================================== *)

Module RegExp.

Import JS.
Local Open Scope N_scope.

(** Abstract syntax of the patterns.  A class is a list of member code
    units with a negation flag; quantifiers are expanded when the source is
    compiled. *)
Inductive regex : Type :=
| Eps : regex
| Dot : regex
| Cls : bool -> list cu -> regex
| Bol : regex
| Eol : regex
| WordB : regex
| Cat : regex -> regex -> regex
| Alt : regex -> regex -> regex
| Star : regex -> regex.

Inductive quant : Type :=
| QStar : quant
| QPlus : quant
| QOpt : quant
| QRep : nat -> option nat -> quant.

Definition cat (a b : regex) : regex :=
  match b with Eps => a | _ => Cat a b end.

Fixpoint times (n : nat) (r : regex) : regex :=
  match n with O => Eps | S k => cat r (times k r) end.

Fixpoint upto (n : nat) (r : regex) : regex :=
  match n with O => Eps | S k => Alt (cat r (upto k r)) Eps end.

Definition quantify (q : quant) (r : regex) : regex :=
  match q with
  | QStar => Star r
  | QPlus => Cat r (Star r)
  | QOpt => Alt r Eps
  | QRep m None => cat (times m r) (Star r)
  | QRep m (Some n) => cat (times m r) (upto (n - m) r)
  end.

(** *** Compiling the source text of a literal

    The syntax characters appear below as code units: [$] 36, [(] 40,
    [)] 41, [*] 42, [+] 43, [,] 44, [-] 45, [.] 46, [:] 58, [?] 63, [[] 91,
    [\] 92, []] 93, [^] 94, [{] 123, [|] 124, [}] 125, and the escape
    letters [b] 98, [d] 100, [s] 115, [w] 119.  The parsers take fuel; the
    source of a literal gives enough of it (see [patterns_compile]). *)

Fixpoint pDigits (s : list cu) (acc : option nat) : option nat * list cu :=
  match s with
  | c :: s' =>
    if isDigit c then
      pDigits s' (Some (10 * match acc with Some a => a | None => O end
                        + N.to_nat (c - 48))%nat)
    else (acc, s)
  | [] => (acc, s)
  end.

(** [*], [+], [?], [{m}], [{m,}], [{m,n}]; a following [?] (lazy) does not
    change what [test] answers and is skipped. *)
Definition pQuant (s : list cu) : option quant * list cu :=
  let lazy (q : quant) (r : list cu) :=
    match r with 63 :: r' => (Some q, r') | _ => (Some q, r) end in
  match s with
  | 42 :: r => lazy QStar r
  | 43 :: r => lazy QPlus r
  | 63 :: r => lazy QOpt r
  | 123 :: r =>
    match pDigits r None with
    | (Some m, 125 :: r1) => lazy (QRep m (Some m)) r1
    | (Some m, 44 :: 125 :: r1) => lazy (QRep m None) r1
    | (Some m, 44 :: r1) =>
      match pDigits r1 None with
      | (Some n, 125 :: r2) => lazy (QRep m (Some n)) r2
      | _ => (None, s)
      end
    | _ => (None, s)
    end
  | _ => (None, s)
  end.

Definition wordUnits : list cu :=
  range 97 122 ++ range 65 90 ++ range 48 57 ++ [95].

(** An escape after the backslash: a class ([\d], [\s], [\w]) or the
    escaped unit itself.  Escaped letters and digits other than these are
    not used by the component and are refused. *)
Definition pEscape (inClass : bool) (s : list cu)
  : option (list cu * option cu * list cu) :=
  match s with
  | 100 :: r => Some (range 48 57, None, r)
  | 115 :: r => Some (whiteSpaceUnits, None, r)
  | 119 :: r => Some (wordUnits, None, r)
  | 98 :: r => if inClass then Some ([8], Some 8, r) else None
  | c :: r => if isWordChar c then None else Some ([c], Some c, r)
  | [] => None
  end.

Definition pClassAtom (s : list cu)
  : option (list cu * option cu * list cu) :=
  match s with
  | 92 :: r => pEscape true r
  | c :: r => Some ([c], Some c, r)
  | [] => None
  end.

Fixpoint pClass (fuel : nat) (s : list cu) (acc : list cu)
  : option (list cu * list cu) :=
  match fuel with
  | O => None
  | S f =>
    match s with
    | 93 :: r => Some (acc, r)
    | _ =>
      match pClassAtom s with
      | Some (ms, Some lo, 45 :: 93 :: r) => Some (acc ++ [lo; 45], r)
      | Some (ms, Some lo, 45 :: r) =>
        match pClassAtom r with
        | Some (_, Some hi, r') =>
          if N.leb lo hi then pClass f r' (acc ++ range lo hi) else None
        | Some (ms', None, r') => pClass f r' (acc ++ [lo; 45] ++ ms')
        | None => None
        end
      | Some (ms, _, r) => pClass f r (acc ++ ms)
      | None => None
      end
    end
  end.

(** An atom that is not a group, or an assertion. *)
Definition pAtom (s : list cu) : option (regex * list cu) :=
  match s with
  | 46 :: r => Some (Dot, r)
  | 94 :: r => Some (Bol, r)
  | 36 :: r => Some (Eol, r)
  | 92 :: 98 :: r => Some (WordB, r)
  | 92 :: r =>
    match pEscape false r with
    | Some (ms, _, r') => Some (Cls false ms, r')
    | None => None
    end
  | 91 :: 94 :: r =>
    match pClass (S (List.length r)) r [] with
    | Some (ms, r') => Some (Cls true ms, r')
    | None => None
    end
  | 91 :: r =>
    match pClass (S (List.length r)) r [] with
    | Some (ms, r') => Some (Cls false ms, r')
    | None => None
    end
  | 42 :: _ | 43 :: _ | 63 :: _ | 41 :: _ | 124 :: _ => None
  | c :: r => Some (Cls false [c], r)
  | [] => None
  end.

Definition quantified (a : regex) (s : list cu) : regex * list cu :=
  match pQuant s with
  | (Some q, r) => (quantify q a, r)
  | (None, r) => (a, r)
  end.

Fixpoint pDisj (fuel : nat) (s : list cu) {struct fuel}
  : option (regex * list cu) :=
  match fuel with
  | O => None
  | S f =>
    match pSeq f s with
    | Some (a, 124 :: r) =>
      match pDisj f r with
      | Some (b, r') => Some (Alt a b, r')
      | None => None
      end
    | other => other
    end
  end
with pSeq (fuel : nat) (s : list cu) {struct fuel}
  : option (regex * list cu) :=
  match fuel with
  | O => None
  | S f =>
    match s with
    | [] => Some (Eps, s)
    | 124 :: _ | 41 :: _ => Some (Eps, s)
    | _ =>
      match pTerm f s with
      | Some (t, r) =>
        match pSeq f r with
        | Some (u, r') => Some (cat t u, r')
        | None => None
        end
      | None => None
      end
    end
  end
with pTerm (fuel : nat) (s : list cu) {struct fuel}
  : option (regex * list cu) :=
  match fuel with
  | O => None
  | S f =>
    match s with
    | 40 :: r =>
      let body := match r with 63 :: 58 :: r' => r' | _ => r end in
      match pDisj f body with
      | Some (g, 41 :: r') => Some (quantified g r')
      | _ => None
      end
    | _ =>
      match pAtom s with
      | Some (a, r) => Some (quantified a r)
      | None => None
      end
    end
  end.

Definition parse (src : list cu) : option regex :=
  match pDisj (4 * List.length src + 4) src with
  | Some (r, []) => Some r
  | _ => None
  end.

(** *** Matching

    A set of positions of the subject string is a list of booleans, one for
    each position from [0] to its length.  [run ci r s v] is the set of
    positions where a match of [r] can end when it starts at a position of
    [v]. *)

Definition posset := list bool.

Fixpoint advance (p : cu -> bool) (s : jsstring) (v : posset) (carry : bool)
  {struct v} : posset :=
  match v with
  | [] => []
  | b :: v' =>
    carry :: match s with
             | [] => []
             | c :: s' => advance p s' v' (b && p c)
             end
  end.

Fixpoint union (v w : posset) : posset :=
  match v, w with
  | a :: v', b :: w' => (a || b)%bool :: union v' w'
  | _, _ => []
  end.

Definition onlyFirst (v : posset) : posset :=
  match v with
  | [] => []
  | b :: v' => b :: map (fun _ => false) v'
  end.

Fixpoint onlyLast (v : posset) : posset :=
  match v with
  | [] => []
  | b :: v' =>
    match v' with
    | [] => [b]
    | _ :: _ => false :: onlyLast v'
    end
  end.

Fixpoint boundaries (prev : bool) (s : jsstring) (v : posset) {struct v}
  : posset :=
  match v with
  | [] => []
  | b :: v' =>
    match s with
    | [] => [(b && prev)%bool]
    | c :: s' =>
      (b && xorb prev (isWordChar c))%bool :: boundaries (isWordChar c) s' v'
    end
  end.

Fixpoint iterate (n : nat) (f : posset -> posset) (v : posset) : posset :=
  match n with
  | O => v
  | S k => iterate k f (union v (f v))
  end.

(** Membership of a code unit in a class.  With the [i] flag a unit belongs
    to the class when its canonical form is the canonical form of a member;
    [classMembers] canonicalizes the members once. *)
Definition classMembers (ci : bool) (ms : list cu) : list cu :=
  if ci then map canonicalize ms else ms.

Definition classTest (ci neg : bool) (members : list cu) (x : cu) : bool :=
  xorb neg (existsb (cu_eqb (if ci then canonicalize x else x)) members).

Fixpoint run (ci : bool) (r : regex) (s : jsstring) (v : posset) : posset :=
  match r with
  | Eps => v
  | Dot => advance (fun c => negb (isLineTerminator c)) s v false
  | Cls neg ms =>
    let members := classMembers ci ms in
    advance (classTest ci neg members) s v false
  | Bol => onlyFirst v
  | Eol => onlyLast v
  | WordB => boundaries false s v
  | Cat a b => run ci b s (run ci a s v)
  | Alt a b => union (run ci a s v) (run ci b s v)
  | Star a => iterate (S (List.length s)) (run ci a s) v
  end.

Definition matches (ci : bool) (r : regex) (s : jsstring) : bool :=
  existsb (fun b => b) (run ci r s (repeat true (S (List.length s)))).

(** A regular expression literal: its source and its [i] flag. *)
Record t : Type := mk { source : string; ignoreCase : bool }.

Definition compile (re : t) : option regex := parse (utf16 (source re)).

(** [re.test(s)], for a literal without the [g] and [y] flags. *)
Definition test (re : t) (s : jsstring) : bool :=
  match compile re with
  | Some r => matches (ignoreCase re) r s
  | None => false
  end.

End RegExp.

(** [/src/] and [/src/i]. *)
Notation "'RE' s" := (RegExp.mk s false) (at level 9, s at level 0).
Notation "'REi' s" := (RegExp.mk s true) (at level 9, s at level 0).

(* ===================================================================== *)
(** ** The data of the component *)
(* ===================================================================== *)

Import JS.

Local Open Scope string_scope.
Local Open Scope list_scope.
Local Open Scope Q_scope.

(** ['url' | 'email' | 'sms'] *)
Inductive ContentType : Type := Url | Email | Sms.

(** ['low' | 'medium' | 'high'] *)
Inductive Threat : Type := Low | Medium | High.

Definition ContentType_eqb (a b : ContentType) : bool :=
  match a, b with
  | Url, Url | Email, Email | Sms, Sms => true
  | _, _ => false
  end.

Definition Threat_eqb (a b : Threat) : bool :=
  match a, b with
  | Low, Low | Medium, Medium | High, High => true
  | _, _ => false
  end.

(** What the environment answers to [Date.now()], [Math.random()] and
    [new Date()] during one evaluation. *)
Record Stamp : Type := {
  dateNow : N;
  mathRandom : Q;
  newDate : N
}.

(** The template [`${type}_${Date.now()}_${Math.random()}`], kept as its
    three components. *)
Record AlertId : Type := {
  idType : ContentType;
  idNow : N;
  idRandom : Q
}.

(** [interface FraudAlert] *)
Record FraudAlert : Type := {
  id : AlertId;
  type : ContentType;
  content : jsstring;
  threat : Threat;
  confidence : Q;
  reasons : list string;
  timestamp : N;
  blocked : bool
}.

(** An entry of [fraudPatterns]. *)
Record Pattern : Type := pat {
  pattern : RegExp.t;
  reason : string;
  weight : Q
}.

Definition fraudPatterns_url : list Pattern :=
  [
    pat (REi "bit\.ly|tinyurl|t\.co|goo\.gl|short\.link|is\.gd|ow\.ly|buff\.ly")
      "Shortened URL detected" 0.7;
    pat (REi "urgent|verify|suspended|expires?|immediate|asap|now|today|24.*hours?")
      "Creates false urgency" 0.8;
    pat (REi "winner|congratulations|lottery|prize|selected|won|claim|reward")
      "Prize/lottery scam indicators" 0.9;
    pat (REi "login|signin|account|bank|paypal|amazon|apple|microsoft|google|verify|update|confirm")
      "Credential harvesting attempt" 0.6;
    pat (RE "[0-9]{1,3}\.[0-9]{1,3}\.[0-9]{1,3}\.[0-9]{1,3}")
      "IP address instead of domain" 0.95;
    pat (REi "secure-.*\.(tk|ml|ga|cf)|.*-secure\.(tk|ml|ga|cf)|verify.*\.(tk|ml|ga|cf)")
      "Suspicious domain pattern with free TLD" 0.9;
    pat (REi "payp[a4]l|g[o0][o0]gle|micr[o0]s[o0]ft|[a4]m[a4]z[o0]n|[a4]pple|f[a4]ceb[o0][o0]k|tw[i1]tter|netfl[i1]x")
      "Possible brand impersonation/typosquatting" 0.85;
    pat (REi "[?&](account|login|verify|update|confirm|suspend|lock|expire|urgent)=")
      "Suspicious URL parameters" 0.7;
    pat (REi "xn--|[а-я]|[αβγδεζηθικλμνξοπρστυφχψω]|[аеорсукх]")
      "Possible homograph/character substitution attack" 0.95;
    pat (REi "\.(exe|bat|scr|cmd|pif|com|jar|zip|rar|dmg|apk|deb|rpm)([?#]|$)")
      "Suspicious executable file type" 0.8
  ].

Definition fraudPatterns_email : list Pattern :=
  [
    pat (REi "urgent|immediate|expires?|suspend|asap|act.*now|respond.*within|final.*notice|last.*chance")
      "Creates false urgency" 0.8;
    pat (REi "click.*here|download.*now|verify.*now|update.*now|confirm.*now|access.*now")
      "Generic call-to-action" 0.7;
    pat (REi "congratulations|winner|selected|lottery|prize|won|claim|reward|contest|drawing")
      "Prize/lottery scam indicators" 0.95;
    pat (REi "prince|inheritance|million|billion|dollars?|deceased|beneficiary|estate|diplomat|barrister|solicitor")
      "Advance fee fraud (419 scam) indicators" 0.95;
    pat (REi "suspended|terminated|blocked|locked|deactivated|compromised|hacked|unauthorized")
      "Account threat tactics" 0.85;
    pat (REi "tax.*refund|irs|fbi|homeland.*security|customs|immigration|social.*security|medicare|stimulus")
      "Government authority impersonation" 0.9;
    pat (REi "dear\s+(sir|madam|friend|customer|valued|esteemed|recipient)")
      "Generic greeting typical of mass scams" 0.6;
    pat (REi "beneficiary|transfer.*funds|claim.*money|wire.*transfer|bank.*details|routing.*number|account.*number")
      "Financial fraud language" 0.85;
    pat (REi "contact.*immediately|respond.*within|act.*now|time.*sensitive|expire.*soon|final.*warning")
      "High-pressure tactics" 0.8;
    pat (REi "western.*union|money.*gram|bitcoin|cryptocurrency|gift.*card|itunes.*card|steam.*card|prepaid.*card")
      "Suspicious payment methods" 0.9;
    pat (REi "confidential|secret|private.*matter|classified|discreet|between.*us|do.*not.*tell")
      "Secrecy tactics to avoid scrutiny" 0.7;
    pat (REi "\b(recieve|occured|seperate|definately|alot|loose|there|their|your|you're)\b")
      "Common spelling errors in scam emails" 0.4;
    pat (REi "noreply|no-reply|donotreply|notification|alert|security|admin|support.*@(gmail|yahoo|hotmail|outlook)")
      "Suspicious sender using free email service" 0.6;
    pat (REi "love|romance|relationship|dating|meet|attractive|photos|lonely|widow|military|overseas")
      "Romance scam indicators" 0.7;
    pat (REi "computer.*infected|virus.*detected|malware|windows.*license|microsoft.*support|apple.*support")
      "Tech support scam indicators" 0.8
  ].

Definition fraudPatterns_sms : list Pattern :=
  [
    pat (REi "congratulations|winner|selected|won|prize|reward|contest|drawing|lottery")
      "Prize scam indicators" 0.95;
    pat (REi "click|link|http|bit\.ly|tinyurl|download|install|app")
      "Suspicious link request" 0.8;
    pat (REi "urgent|expire|suspend|immediate|asap|now|today|24.*hours?|final")
      "Creates false urgency" 0.8;
    pat (REi "free|offer|deal|discount|save|50%|75%|90%|cash|money|gift")
      "Too-good-to-be-true offers" 0.6;
    pat (REi "verify|confirm|update|validate|authenticate|secure|login|password")
      "Information harvesting attempt" 0.7;
    pat (REi "subscription|premium|charged|billing|cancel|unsubscribe|stop.*reply")
      "Subscription scam pattern" 0.7;
    pat (REi "bank|card|account|payment|transaction|fraud|security.*alert|suspended")
      "Financial institution impersonation" 0.8;
    pat (REi "package|delivery|shipment|fedex|ups|dhl|postal|redelivery|failed.*delivery")
      "Package delivery scam" 0.7;
    pat (REi "tax|irs|refund|stimulus|government|social.*security|medicare|benefits")
      "Government impersonation" 0.9;
    pat (REi "virus|malware|infected|security.*breach|microsoft|apple|google|tech.*support")
      "Tech support scam" 0.8;
    pat (REi "dating|lonely|photos|meet|relationship|love|attractive|military|overseas")
      "Romance/social engineering scam" 0.7;
    pat (REi "bitcoin|crypto|investment|trading|profit|roi|guaranteed.*returns|make.*money")
      "Cryptocurrency/investment scam" 0.8
  ].

Definition fraudPatterns (t : ContentType) : list Pattern :=
  match t with
  | Url => fraudPatterns_url
  | Email => fraudPatterns_email
  | Sms => fraudPatterns_sms
  end.

Definition safeIndicators_url : list RegExp.t :=
  [
    REi "^https:\/\/(www\.)?(google|microsoft|apple|amazon|github|stackoverflow|wikipedia|mozilla|linkedin|youtube|twitter|facebook|instagram)\.com";
    REi "^https:\/\/[a-z0-9-]+\.(edu|gov|org)($|\/)";
    REi "^https:\/\/[a-z0-9-]+\.(com|net|org)\/[a-z0-9-\/]*\.(pdf|doc|docx|jpg|jpeg|png|gif)$"
  ].

Definition safeIndicators_email : list RegExp.t :=
  [
    REi "from:.*@(gmail|yahoo|hotmail|outlook)\.com.*subject:\s*(meeting|project|reminder|invoice|receipt|newsletter)";
    REi "unsubscribe|privacy.*policy|terms.*of.*service|customer.*service";
    REi "thank.*you.*for.*your.*order|your.*order.*has.*been.*shipped|delivery.*confirmation"
  ].

Definition safeIndicators_sms : list RegExp.t :=
  [
    REi "your.*appointment|meeting.*reminder|delivery.*notification|order.*confirmation";
    REi "verification.*code.*\d{4,6}.*expires.*in.*\d+.*minutes";
    REi "reply.*stop.*to.*unsubscribe|text.*stop.*to.*opt.*out"
  ].

Definition safeIndicators (t : ContentType) : list RegExp.t :=
  match t with
  | Url => safeIndicators_url
  | Email => safeIndicators_email
  | Sms => safeIndicators_sms
  end.

(* ===================================================================== *)
(** ** The platform's URL class *)
(* ===================================================================== *)

(** The properties of a parsed URL that [analyzeContent] reads. *)
Record URL : Type := {
  href : jsstring;
  protocol : jsstring;
  hostname : jsstring;
  port : jsstring;
  pathname : jsstring
}.

(** [new URL(input)]: the parsed URL, or [None] where the constructor
    throws a [TypeError]. *)
Class URLParser : Type := { newURL : jsstring -> option URL }.

(** The URL Standard serialises a host in ASCII: a domain through
    domain-to-ASCII (punycode), an opaque host percent-encoded. *)
Definition asciiHosts (P : URLParser) : Prop :=
  forall input u, newURL input = Some u -> forallb isAscii (hostname u) = true.

(* ===================================================================== *)
(** ** analyzeContent *)
(* ===================================================================== *)

(** The two accumulators of one evaluation: [totalWeight] and
    [matchedReasons]. *)
Record Acc : Type := {
  totalWeight : Q;
  matchedReasons : list string
}.

Definition start : Acc := {| totalWeight := 0; matchedReasons := [] |}.

(** [totalWeight += w; matchedReasons.push(r)] *)
Definition hit (w : Q) (r : string) (a : Acc) : Acc :=
  {| totalWeight := totalWeight a + w;
     matchedReasons := matchedReasons a ++ [r] |}.

Definition isSafeContent (t : ContentType) (content : jsstring) : bool :=
  existsb (fun re => RegExp.test re (toLowerCase content)) (safeIndicators t).

Definition safeContentMultiplier (t : ContentType) (content : jsstring) : Q :=
  if isSafeContent t content then 0.6 else 1.0.

(** The body of [patterns.forEach]. *)
Definition checkPattern (mult : Q) (content : jsstring) (a : Acc)
  (p : Pattern) : Acc :=
  if RegExp.test (pattern p) content
  then hit (weight p * mult) (reason p) a
  else a.

Definition checkPatterns (mult : Q) (ps : list Pattern) (content : jsstring)
  (a : Acc) : Acc :=
  fold_left (checkPattern mult content) ps a.

Definition suspiciousTlds : list jsstring :=
  map utf16 [".tk"; ".ml"; ".ga"; ".cf"; ".pw"; ".top"; ".work"; ".click";
             ".download"; ".review"].

Definition highRiskTlds : list jsstring :=
  map utf16 [".tk"; ".ml"; ".ga"; ".cf"].

Definition suspiciousChars : RegExp.t :=
  REi "[а-я]|[αβγδεζηθικλμνξοπρστυφχψω]|[аеорсукх]|[àáâãäåæçèéêëìíîïðñòóôõö]".

(** The literals the checks of the content types test, in the order of the
    source. *)
Definition sensitiveKeywords : RegExp.t :=
  REi "login|bank|secure|account|payment".

Definition suspiciousPath : RegExp.t :=
  REi "\/(admin|wp-admin|login|signin|secure|verify|update|confirm)\.php".

Definition capitalsRun : RegExp.t := RE "[A-Z]{10,}".

Definition exclamationRun : RegExp.t := RE "!{3,}".

Definition suspiciousEmailDomain : RegExp.t :=
  REi "@[a-z0-9-]+\.(tk|ml|ga|cf|ru|cn)".

Definition moneyAmount : RegExp.t :=
  REi "\$[\d,]+|£[\d,]+|€[\d,]+|\d+\s*(million|billion|thousand)".

Definition senderNumber : RegExp.t := REi "from:\s*\d{5,6}[^0-9]".

Definition replyNumber : RegExp.t := RE "reply.*\d{5}".

(** The literal of the mutation observer. *)
Definition emailLike : RegExp.t := RE "@.*\.(com|org|net)".

Definition inlineLiterals : list RegExp.t :=
  [suspiciousChars; sensitiveKeywords; suspiciousPath; capitalsRun;
   exclamationRun; suspiciousEmailDomain; moneyAmount; senderNumber;
   replyNumber; emailLike].

(** [a === b] on strings. *)
Definition jsstring_eqb (a b : jsstring) : bool :=
  (Nat.eqb (List.length a) (List.length b) && startsWith a b)%bool.

Section Analysis.

Context {platform : URLParser}.

(** The checks inside the [try] block, once the URL is parsed. *)
Definition urlStructure (url : URL) (a : Acc) : Acc :=
  let a :=
    if existsb (fun tld => endsWith (hostname url) tld) highRiskTlds
    then hit 0.9 "High-risk top-level domain" a
    else if existsb (fun tld => endsWith (hostname url) tld) suspiciousTlds
    then hit 0.7 "Suspicious top-level domain" a
    else a in
  let subdomainCount := splitCount 46%N (hostname url) in
  let a :=
    if Nat.ltb 4 subdomainCount
    then hit 0.7 "Excessive subdomain nesting" a
    else if Nat.ltb 3 subdomainCount
    then hit 0.4 "Multiple subdomains detected" a
    else a in
  let a :=
    if RegExp.test suspiciousChars (hostname url)
    then hit 0.95 "Possible homograph/character substitution attack" a
    else a in
  let a :=
    if (truthy (port url) && negb (jsstring_eqb (port url) (utf16 "80"))
        && negb (jsstring_eqb (port url) (utf16 "443")))%bool
    then hit 0.6 "Non-standard port number detected" a
    else a in
  let a :=
    if (jsstring_eqb (protocol url) (utf16 "http:")
        && RegExp.test sensitiveKeywords (href url))%bool
    then hit 0.8 "Insecure HTTP protocol for sensitive content" a
    else a in
  let a :=
    if Nat.ltb 200 (JS.length (href url))
    then hit 0.5 "Unusually long URL" a
    else a in
  let a :=
    if RegExp.test suspiciousPath (pathname url)
    then hit 0.7 "Suspicious file path detected" a
    else a in
  a.

(** The argument of [new URL]: the content, with [https://] in front when
    it does not start with [http]. *)
Definition urlInput (content : jsstring) : jsstring :=
  if startsWith content (utf16 "http") then content
  else utf16 "https://" ++ content.

(** [if (type === 'url') { try { ... } catch (e) { ... } }] *)
Definition urlChecks (content : jsstring) (a : Acc) : Acc :=
  match newURL (urlInput content) with
  | Some url => urlStructure url a
  | None => hit 0.8 "Malformed URL structure" a
  end.

(** [if (type === 'email') { ... }] *)
Definition emailChecks (content : jsstring) (a : Acc) : Acc :=
  let a :=
    if RegExp.test capitalsRun content
    then hit 0.4 "Excessive use of capital letters" a
    else a in
  let a :=
    if RegExp.test exclamationRun content
    then hit 0.3 "Excessive punctuation usage" a
    else a in
  let a :=
    if RegExp.test suspiciousEmailDomain content
    then hit 0.7 "Suspicious email domain in content" a
    else a in
  let a :=
    if RegExp.test moneyAmount content
    then hit 0.6 "Large monetary amounts mentioned" a
    else a in
  a.

(** [if (type === 'sms') { ... }] *)
Definition smsChecks (content : jsstring) (a : Acc) : Acc :=
  let a :=
    if (Nat.ltb (JS.length content) 50
        && Nat.ltb 0 (List.length (matchedReasons a)))%bool
    then hit 0.3 "Short message with suspicious content" a
    else a in
  let a :=
    if (RegExp.test senderNumber content
        || RegExp.test replyNumber content)%bool
    then hit 0.6 "Suspicious sender number pattern" a
    else a in
  a.

(** The accumulators after the pattern table has been run. *)
Definition ruleStage (t : ContentType) (content : jsstring) : Acc :=
  checkPatterns (safeContentMultiplier t content) (fraudPatterns t) content
    start.

(** The three [if (type === ...)] blocks, in the order of the source. *)
Definition typeChecks (t : ContentType) (content : jsstring) (a : Acc) : Acc :=
  let a := if ContentType_eqb t Url then urlChecks content a else a in
  let a := if ContentType_eqb t Email then emailChecks content a else a in
  let a := if ContentType_eqb t Sms then smsChecks content a else a in
  a.

(** The accumulators when the function reaches its [return] statements:
    pattern table first, then the checks of the content type. *)
Definition score (t : ContentType) (content : jsstring) : Acc :=
  typeChecks t content (ruleStage t content).

(** The threshold cascade; [None] is the [else return null] branch. *)
Definition threatOf (totalWeight : Q) : option Threat :=
  if Qle_bool 2.0 totalWeight then Some High
  else if Qle_bool 1.2 totalWeight then Some Medium
  else if Qle_bool 0.6 totalWeight then Some Low
  else None.

Definition confidenceOf (totalWeight : Q) (reasonCount : nat) : Q :=
  let baseConfidence := Qmin (totalWeight / 3) 0.98 in
  let patternBonus := Qmin (inject_Z (Z.of_nat reasonCount) * 0.05) 0.15 in
  Qmin (baseConfidence + patternBonus) 0.99.

Definition analyzeContent (isEnabled : bool) (now : Stamp) (t : ContentType)
  (content : jsstring) : option FraudAlert :=
  if (negb isEnabled || negb (truthy (trim content)))%bool then None
  else
    let a := score t content in
    if Nat.eqb (List.length (matchedReasons a)) 0 then None
    else
      match threatOf (totalWeight a) with
      | None => None
      | Some threat =>
        let confidence :=
          confidenceOf (totalWeight a) (List.length (matchedReasons a)) in
        Some {| id := {| idType := t; idNow := dateNow now;
                         idRandom := mathRandom now |};
                type := t;
                content := slice0 300 content;
                threat := threat;
                confidence := confidence;
                reasons := firstn 10 (matchedReasons a);
                timestamp := newDate now;
                blocked :=
                  (Threat_eqb threat High
                   || (Threat_eqb threat Medium
                       && negb (Qle_bool confidence 0.75)))%bool |}
      end.

End Analysis.

(* ===================================================================== *)
(** ** A reference URL parser *)
(* ===================================================================== *)

(** The URL Standard's parser on inputs of the shape
    [http(s)://host[:port][/path][?query][#fragment]] whose host is an ASCII
    domain or a dotted-decimal IPv4 address and whose path, query and
    fragment need no percent-encoding or dot-segment removal.  Inside that
    shape it follows the Standard (scheme and host in lower case, default
    port dropped, empty path serialised as [/], failure on an empty host, a
    forbidden host code point or a bad port).  Credentials, IPv6 literals,
    percent-encoded or non-ASCII hosts and other schemes are outside the
    shape and answered [None]; the theorems of this file hold for every
    parser and use this one only to evaluate examples. *)
Module RefURL.

Local Open Scope N_scope.
Local Open Scope list_scope.

Definition asciiLower (c : cu) : cu :=
  if in_range 65 90 c then c + 32 else c.

(** Splits at the first code unit satisfying [p]. *)
Fixpoint break (p : cu -> bool) (s : jsstring) : jsstring * jsstring :=
  match s with
  | [] => ([], [])
  | c :: s' =>
    if p c then ([], s)
    else let (a, b) := break p s' in (c :: a, b)
  end.

(** The pieces of [s] between occurrences of [sep]; [cur] is the piece
    being read, last unit first. *)
Fixpoint splitOn (sep : cu) (s cur : jsstring) : list jsstring :=
  match s with
  | [] => [rev cur]
  | c :: s' =>
    if cu_eqb c sep then rev cur :: splitOn sep s' []
    else splitOn sep s' (c :: cur)
  end.

Definition isC0OrSpace (c : cu) : bool := N.leb c 32.

Definition isTabOrNewline (c : cu) : bool :=
  (cu_eqb c 9 || cu_eqb c 10 || cu_eqb c 13)%bool.

Definition isSlash (c : cu) : bool := (cu_eqb c 47 || cu_eqb c 92)%bool.

(** Neither a forbidden domain code point nor outside ASCII. *)
Definition hostUnitOk (c : cu) : bool :=
  (isAscii c && negb (N.leb c 32) && negb (cu_eqb c 127)
   && negb (existsb (cu_eqb c) [35; 37; 47; 58; 60; 62; 63; 64; 91; 92; 93;
                                94; 124]))%bool.

(** Code units that path, query and fragment keep as they are. *)
Definition plainUnit (c : cu) : bool :=
  (in_range 33 126 c
   && negb (existsb (cu_eqb c) [34; 35; 37; 39; 60; 62; 63; 92; 96; 123;
                                125]))%bool.

Fixpoint decimal (s : jsstring) (acc : N) : N :=
  match s with
  | [] => acc
  | c :: s' => decimal s' (10 * acc + (c - 48))
  end.

(** The decimal digits of [n], most significant first. *)
Fixpoint digitsOf (fuel : nat) (n : N) (acc : jsstring) : jsstring :=
  match fuel with
  | O => acc
  | S f =>
    let acc' := (48 + n mod 10) :: acc in
    if N.ltb n 10 then acc' else digitsOf f (n / 10) acc'
  end.

Definition isOctet (l : jsstring) : bool :=
  (truthy l && forallb isDigit l && N.leb (decimal l 0) 255
   && Nat.leb (List.length l) 3
   && (Nat.eqb (List.length l) 1 || negb (startsWith l [48])))%bool.

Definition startsWithDigit (l : jsstring) : bool :=
  match l with
  | c :: _ => isDigit c
  | [] => false
  end.

(** A host whose last label starts like a number is taken only as a
    dotted-decimal IPv4 address; a label starting with [xn--] would need
    punycode validation and is left out, as is an empty last label. *)
Definition hostShapeOk (h : jsstring) : bool :=
  let ls := splitOn 46 h [] in
  let last := firstn 1 (rev ls) in
  (negb (existsb (fun l => startsWith l (utf16 "xn--")) ls)
   && forallb truthy last
   && (if existsb startsWithDigit last
       then (Nat.eqb (List.length ls) 4 && forallb isOctet ls)%bool
       else true))%bool.

Definition noDotSegment (path : jsstring) : bool :=
  negb (existsb (fun l => (jsstring_eqb l [46] || jsstring_eqb l [46; 46])%bool)
          (splitOn 47 path [])).

Definition orEmpty (o : option jsstring) : jsstring :=
  match o with Some s => s | None => [] end.

(** The URL record of a scheme, a host, the digits of a port and the rest,
    when they are inside the shape. *)
Definition assemble (scheme host0 portDigits path : jsstring)
  (query fragment : option jsstring) : option URL :=
  let isHttp := jsstring_eqb scheme (utf16 "http") in
  let isHttps := jsstring_eqb scheme (utf16 "https") in
  let host := map asciiLower host0 in
  let portNumber := decimal portDigits 0 in
  let defaultPort := if isHttp then 80 else 443 in
  let portText :=
    if (negb (truthy portDigits) || N.eqb portNumber defaultPort)%bool
    then [] else digitsOf 5 portNumber [] in
  let pathname := if truthy path then path else [47] in
  if ((isHttp || isHttps)
      && truthy host && forallb hostUnitOk host0 && hostShapeOk host
      && forallb isDigit portDigits && Nat.leb (List.length portDigits) 5
      && N.leb portNumber 65535
      && forallb plainUnit path && noDotSegment path
      && forallb plainUnit (orEmpty query)
      && forallb plainUnit (orEmpty fragment))%bool
  then
    Some {| href :=
              scheme ++ utf16 "://" ++ host
              ++ (if truthy portText then 58 :: portText else [])
              ++ pathname
              ++ (match query with Some q => 63 :: q | None => [] end)
              ++ (match fragment with Some f => 35 :: f | None => [] end);
            protocol := scheme ++ [58];
            hostname := host;
            port := portText;
            pathname := pathname |}
  else None.

(** What follows the delimiter a [break] stopped at. *)
Definition afterMark (s : jsstring) : option jsstring :=
  match s with
  | [] => None
  | _ :: r => Some r
  end.

Definition isQueryOrFragment (c : cu) : bool :=
  (cu_eqb c 63 || cu_eqb c 35)%bool.

Definition parse (input : jsstring) : option URL :=
  let s := rev (dropWhile isC0OrSpace (rev (dropWhile isC0OrSpace input))) in
  let s := filter (fun c => negb (isTabOrNewline c)) s in
  let (scheme0, r0) := break (cu_eqb 58) s in
  match afterMark r0 with
  | None => None
  | Some r1 =>
    let r2 := dropWhile isSlash r1 in
    let (authority, r3) :=
      break (fun c => (isSlash c || isQueryOrFragment c)%bool) r2 in
    let (path, r4) := break isQueryOrFragment r3 in
    let (queryPart, fragmentPart) :=
      if startsWith r4 [63] then break (cu_eqb 35) r4 else ([], r4) in
    let (host0, p0) := break (cu_eqb 58) authority in
    assemble (map asciiLower scheme0) host0 (orEmpty (afterMark p0)) path
      (afterMark queryPart) (afterMark fragmentPart)
  end.

End RefURL.

#[export] Instance refURL : URLParser := {| newURL := RefURL.parse |}.

(* ===================================================================== *)
(** ** The component state and its handlers *)
(* ===================================================================== *)

(** The [useState] cells the handlers write. *)
Record State : Type := {
  alerts : list FraudAlert;
  showWarningPopup : option FraudAlert;
  blockedCount : nat;
  interceptedAttempts : nat
}.

Definition initial : State :=
  {| alerts := []; showWarningPopup := None; blockedCount := 0;
     interceptedAttempts := 0 |}.

(** What can happen to the component: a click on a link, a DOM node added
    under [document.body], the timer of [handleManualTest] firing, and the
    three buttons. *)
Inductive Event : Type :=
| Click (linkHref : jsstring) (now : Stamp)
| NodeAdded (textContent : jsstring) (now : Stamp)
| ManualTest (testType : ContentType) (testContent : jsstring) (now : Stamp)
| DismissPopup
| ProceedAnyway
| ClearAlerts.

(** [[alert, ...prev.slice(0, 9)]] *)
Definition pushAlert (alert : FraudAlert) (prev : list FraudAlert)
  : list FraudAlert :=
  alert :: firstn 9 prev.

(** The updates shared by [handleClick] and [handleManualTest]. *)
Definition intercept (alert : FraudAlert) (s : State) : State :=
  {| alerts := pushAlert alert (alerts s);
     showWarningPopup := Some alert;
     blockedCount :=
       if blocked alert then S (blockedCount s) else blockedCount s;
     interceptedAttempts := S (interceptedAttempts s) |}.

(** The updates of the mutation observer. *)
Definition observe (alert : FraudAlert) (s : State) : State :=
  {| alerts := pushAlert alert (alerts s);
     showWarningPopup :=
       if Threat_eqb (threat alert) High then Some alert
       else showWarningPopup s;
     blockedCount := blockedCount s;
     interceptedAttempts := interceptedAttempts s |}.

Section Component.

Context {platform : URLParser}.

(** The evaluation an event asks for, if any.  The click listener and the
    observer are installed only while the component is enabled. *)
Definition evaluation (isEnabled : bool) (e : Event) : option FraudAlert :=
  match e with
  | Click linkHref now =>
    if (isEnabled && truthy linkHref)%bool
    then analyzeContent isEnabled now Url linkHref
    else None
  | NodeAdded textContent now =>
    if (isEnabled && Nat.ltb 50 (JS.length textContent)
        && RegExp.test emailLike textContent)%bool
    then analyzeContent isEnabled now Email textContent
    else None
  | ManualTest testType testContent now =>
    if negb (truthy (trim testContent)) then None
    else analyzeContent isEnabled now testType testContent
  | DismissPopup | ProceedAnyway | ClearAlerts => None
  end.

Definition step (isEnabled : bool) (e : Event) (s : State) : State :=
  match e with
  | Click _ _ | ManualTest _ _ _ =>
    match evaluation isEnabled e with
    | Some alert => intercept alert s
    | None => s
    end
  | NodeAdded _ _ =>
    match evaluation isEnabled e with
    | Some alert => observe alert s
    | None => s
    end
  | DismissPopup | ProceedAnyway =>
    {| alerts := alerts s; showWarningPopup := None;
       blockedCount := blockedCount s;
       interceptedAttempts := interceptedAttempts s |}
  | ClearAlerts =>
    {| alerts := []; showWarningPopup := showWarningPopup s;
       blockedCount := 0; interceptedAttempts := 0 |}
  end.

(** A run: the events in the order they happen, each with the value of the
    [isEnabled] prop at that moment. *)
Definition run (es : list (bool * Event)) (s : State) : State :=
  fold_left (fun s be => step (fst be) (snd be) s) es s.

(** The non-null results of the evaluations of a run, oldest first. *)
Definition results (es : list (bool * Event)) : list FraudAlert :=
  flat_map (fun be => match evaluation (fst be) (snd be) with
                      | Some alert => [alert]
                      | None => []
                      end) es.

Definition clears (be : bool * Event) : bool :=
  match snd be with ClearAlerts => true | _ => false end.

End Component.

(* ===================================================================== *)
(** ** Auxiliary notions for the proofs *)
(* ===================================================================== *)

(** A weight and the reason pushed with it. *)
Definition Hit : Type := (Q * string)%type.

Definition sumQ (ws : list Q) : Q := fold_right Qplus 0 ws.

Definition sumW (hs : list Hit) : Q := sumQ (map fst hs).

(** [Extends a hs a']: [a'] is [a] after the hits [hs], in that order. *)
Inductive Extends (a : Acc) : list Hit -> Acc -> Prop :=
| Extends_none : Extends a [] a
| Extends_hit : forall hs a' w r,
    Extends a hs a' -> Extends a (hs ++ [(w, r)]) (hit w r a').

(** [subseq l m]: [l] is [m] with some elements left out. *)
Inductive subseq {A : Type} : list A -> list A -> Prop :=
| subseq_nil : subseq [] []
| subseq_skip : forall x l m, subseq l m -> subseq l (x :: m)
| subseq_take : forall x l m, subseq l m -> subseq (x :: l) (x :: m).

(** What the checks of a content type can add, in the order of the source. *)
Definition extraTable (t : ContentType) : list Hit :=
  match t with
  | Url =>
    [ (0.9, "High-risk top-level domain");
      (0.7, "Suspicious top-level domain");
      (0.7, "Excessive subdomain nesting");
      (0.4, "Multiple subdomains detected");
      (0.95, "Possible homograph/character substitution attack");
      (0.6, "Non-standard port number detected");
      (0.8, "Insecure HTTP protocol for sensitive content");
      (0.5, "Unusually long URL");
      (0.7, "Suspicious file path detected");
      (0.8, "Malformed URL structure") ]
  | Email =>
    [ (0.4, "Excessive use of capital letters");
      (0.3, "Excessive punctuation usage");
      (0.7, "Suspicious email domain in content");
      (0.6, "Large monetary amounts mentioned") ]
  | Sms =>
    [ (0.3, "Short message with suspicious content");
      (0.6, "Suspicious sender number pattern") ]
  end.

(** The patterns of a table that match the content. *)
Definition matched (t : ContentType) (content : jsstring) : list Pattern :=
  filter (fun p => RegExp.test (pattern p) content) (fraudPatterns t).

(** The sum of the weights of the matched patterns, before any scaling. *)
Definition ruleWeight (t : ContentType) (content : jsstring) : Q :=
  sumQ (map weight (matched t content)).

Definition ruleHits (mult : Q) (ps : list Pattern) (content : jsstring)
  : list Hit :=
  map (fun p => (weight p * mult, reason p))
    (filter (fun p => RegExp.test (pattern p) content) ps).

Section Derived.

Context {platform : URLParser}.

(** The weight the checks of the content type add after the pattern table:
    the checks run on a zero total, with the reasons found so far. *)
Definition extraWeight (t : ContentType) (content : jsstring) : Q :=
  totalWeight
    (typeChecks t content
       {| totalWeight := 0;
          matchedReasons := matchedReasons (ruleStage t content) |}).

(** The reasons the checks of the content type push. *)
Definition extraReasons (t : ContentType) (content : jsstring) : list string :=
  skipn (List.length (matchedReasons (ruleStage t content)))
    (matchedReasons (score t content)).


End Derived.


(* --------------------------------------------------------------------- *)
(** *** Further notions used by the statements and their proofs *)

(** The source of a literal is accepted by the parser. *)
Definition compiles (re : RegExp.t) : bool :=
  match RegExp.compile re with Some _ => true | None => false end.

(** A pattern made of alternatives of classes whose members all
    canonicalize outside ASCII. *)
Fixpoint foreignLetters (r : RegExp.regex) : bool :=
  match r with
  | RegExp.Cls false ms =>
    forallb (fun m => negb (isAscii (canonicalize m))) ms
  | RegExp.Alt a b => (foreignLetters a && foreignLetters b)%bool
  | _ => false
  end.

(** Pairwise distinct strings, as a test. *)
Fixpoint distinct (l : list string) : bool :=
  match l with
  | [] => true
  | x :: l' => (negb (existsb (String.eqb x) l') && distinct l')%bool
  end.

(** What the checks of a content type can add when the structural homograph
    check stays silent. *)
Definition quietExtraTable (t : ContentType) : list Hit :=
  filter (fun h => negb (String.eqb (snd h)
                    "Possible homograph/character substitution attack"))
    (extraTable t).


(** An environment answer used by the examples. *)
Definition epoch : Stamp := {| dateNow := 0; mathRandom := 0; newDate := 0 |}.



(** The events of a run that come after its last clearing of the history
    (all of them when it was never cleared). *)
Fixpoint sinceClear (es : list (bool * Event)) : list (bool * Event) :=
  match es with
  | [] => []
  | be :: es' =>
    if existsb clears es' then sinceClear es'
    else if clears be then es'
    else be :: es'
  end.

(** Fifteen manual tests of the same message, told apart by their stamps. *)
Definition fifteenTests : list (bool * Event) :=
  map (fun k =>
         (true,
          ManualTest Sms (utf16 "You won a prize")
            {| dateNow := N.of_nat k; mathRandom := 0;
               newDate := N.of_nat k |}))
    (seq 1 15).

(** A parser that keeps the host name as written, against the URL
    Standard; it only serves to show what the component does then. *)
Definition verbatimHosts : URLParser :=
  {| newURL := fun input =>
       Some {| href := input; protocol := utf16 "https:";
               hostname := skipn 8 input; port := []; pathname := [47%N] |} |}.


(* ===================================================================== *)
(** ** What the handlers report to the parent *)
(* ===================================================================== *)

(** ['safe' | 'suspicious' | 'malicious'] *)
Inductive Prediction : Type := Safe | Suspicious | Malicious.

(** [interface FraudResult], without the optional [details] the component
    never sets; of the types of the interface the component produces the
    three content types only. *)
Record FraudResult : Type := {
  resultId : AlertId;
  resultType : ContentType;
  resultContent : jsstring;
  prediction : Prediction;
  resultConfidence : Q;
  resultReasons : list string;
  resultTimestamp : N
}.

(** The object [handleClick] and [handleManualTest] build for
    [onFraudComplete]. *)
Definition toFraudResult (alert : FraudAlert) : FraudResult :=
  {| resultId := id alert;
     resultType := type alert;
     resultContent := content alert;
     prediction :=
       if Threat_eqb (threat alert) High then Malicious
       else if Threat_eqb (threat alert) Medium then Suspicious
       else Safe;
     resultConfidence := confidence alert;
     resultReasons := reasons alert;
     resultTimestamp := timestamp alert |}.

(** [handleFraudComplete] of the application: the list of fraud results
    grows at its head. *)
Definition handleFraudComplete (result : FraudResult)
  (prev : list FraudResult) : list FraudResult :=
  result :: prev.

Section Reports.

Context {platform : URLParser}.

(** The call of [onFraudComplete] an event leads to, if any: the click
    and the manual test report their alert, the mutation observer does
    not. *)
Definition reported (isEnabled : bool) (e : Event) : option FraudResult :=
  match e with
  | Click _ _ | ManualTest _ _ _ =>
    option_map toFraudResult (evaluation isEnabled e)
  | NodeAdded _ _ | DismissPopup | ProceedAnyway | ClearAlerts => None
  end.

(** The [fraudResults] of the application after a run, the component
    being given [handleFraudComplete] as its [onFraudComplete]. *)
Definition fraudResults (es : list (bool * Event))
  (prev : list FraudResult) : list FraudResult :=
  fold_left (fun prev be =>
               match reported (fst be) (snd be) with
               | Some result => handleFraudComplete result prev
               | None => prev
               end) es prev.

End Reports.

(* ===================================================================== *)
(** ** The sample contents of the manual test *)
(* ===================================================================== *)


(** An entry of [randomContentGenerators.email]. *)
Record EmailSample : Type := {
  subject : string;
  content_ : string
}.

(** The sample e-mails of [randomContentGenerators.email]. *)
Definition sampleEmails (fraudulent : bool) : list EmailSample :=
  if fraudulent then
    [ {| subject := "URGENT: Account Verification Required";
        content_ := "Dear Customer,

Your account has been suspended due to suspicious activity. You have 24 hours to verify your information before permanent closure.

Click here to verify now: http://bit.ly/verify-account-urgent

Failure to respond will result in account termination and loss of funds.

Regards,
Security Team" |};
      {| subject := "Congratulations! You've Won $50,000";
        content_ := "Dear Friend,

Congratulations! You have been selected as winner of our monthly lottery drawing. You've won $50,000!

To claim your prize, please contact us immediately with:
- Full Name
- Phone Number  
- Banking Details

This is a confidential matter. Contact immediately before offer expires.

Dr. Michael Johnson
Prize Distribution Department" |};
      {| subject := "Government Tax Refund - Action Required";
        content_ := "Dear Taxpayer,

The IRS owes you a tax refund of $3,247. Your refund is ready for processing.

Click here to claim immediately: http://irs-refund.tk/claim

You must respond within 48 hours or forfeit your refund.

IRS Tax Department" |};
      {| subject := "Inheritance Fund Transfer";
        content_ := "Dear Beneficiary,

I am contacting you regarding an inheritance fund of $2.8 million left by a late client. You are listed as the beneficiary.

This is a private and confidential matter. We need to transfer these funds via Western Union for security.

Contact immediately to claim your inheritance.

Best regards,
Prince Abdullah Al-Rashid
International Finance" |} ]
  else
    [ {| subject := "Your Monthly Statement is Ready";
        content_ := "Hello,

Your monthly account statement for October 2024 is now available in your secure account portal.

To view your statement, please log in to your account at our official website.

If you have any questions, please contact our customer service team during business hours.

Best regards,
Customer Service Team" |};
      {| subject := "Meeting Reminder - Tomorrow at 2 PM";
        content_ := "Hi Team,

This is a reminder about our project review meeting scheduled for tomorrow at 2:00 PM in Conference Room B.

Agenda:
- Project status updates
- Budget review
- Next quarter planning

Please bring your progress reports.

Thanks,
Sarah" |};
      {| subject := "Welcome to Our Newsletter";
        content_ := "Thank you for subscribing to our weekly newsletter!

You'll receive updates about:
- Industry news and trends
- Product updates
- Special offers for subscribers

You can unsubscribe at any time by clicking the link at the bottom of our emails.

Welcome aboard!
Marketing Team" |} ].

(** [randomContentGenerators.sms] *)
Definition sampleSms (fraudulent : bool) : list string :=
  if fraudulent then
    [ "WINNER! You've won $25,000! Claim now: http://bit.ly/win25k before it expires. Text STOP to opt out.";
      "URGENT: Your bank account will be closed. Verify immediately: http://t.co/bankverify or lose access forever.";
      "Congratulations! Apple selected you for iPhone 15 Pro. Click link to claim: http://apple-winner.ml/claim";
      "ALERT: Suspicious activity detected. Confirm identity now: http://tinyurl.com/secure-login to prevent account freeze.";
      "You have 1 missed call. Listen to voicemail: http://voicemail-secure.ga/listen - expires in 2 hours.";
      "Prize notification: You won $10,000 gift card! Click here: http://giftcard-claim.tk urgent action required." ]
  else
    [ "Your appointment with Dr. Smith is confirmed for tomorrow at 3:00 PM. Reply CANCEL if you need to reschedule.";
      "Your package has been delivered to your front door. Tracking #: 1Z999E123456789. Thank you for your order!";
      "Reminder: Your library books are due tomorrow. Renew online or visit the library to avoid late fees.";
      "Your verification code is 123456. Do not share this code with anyone. It expires in 10 minutes.";
      "Meeting moved to 4 PM in Room 301. See you there! - Team Lead";
      "Your ride will arrive in 5 minutes. Driver: John, License: ABC123. White Toyota Prius." ].

(** [randomContentGenerators.url] *)
Definition sampleUrls (fraudulent : bool) : list string :=
  if fraudulent then
    [ "https://secure-paypal-verification.tk/login?account=suspended&verify=true";
      "http://amazon-security.ml/verify/login.php?urgent=true&suspend=24hrs";
      "https://bankofamerica-verify.ga/secure/login?account=locked";
      "http://microsoft-security.cf/account/verify?expires=today";
      "https://apple-id-secure.tk/verify/account?urgent=immediate";
      "http://192.168.1.100/phishing/login.html";
      "https://google-security.ml/verify?account=suspended&urgent=true";
      "http://facebook-verify.ga/security/login?expires=now";
      "https://netflix-billing.tk/update/payment?urgent=true";
      "http://government-refund.ml/claim?tax=refund&urgent=24hrs" ]
  else
    [ "https://www.google.com/search?q=weather+forecast";
      "https://github.com/microsoft/typescript";
      "https://stackoverflow.com/questions/tagged/javascript";
      "https://www.wikipedia.org/wiki/Machine_learning";
      "https://docs.microsoft.com/en-us/azure/";
      "https://developer.mozilla.org/en-US/docs/Web/JavaScript";
      "https://www.youtube.com/watch?v=dQw4w9WgXcQ";
      "https://www.linkedin.com/in/profile";
      "https://news.ycombinator.com/";
      "https://www.reddit.com/r/programming" ].

(** [Math.floor(x)] as an index, for [x] not negative. *)
Definition floorIndex (x : Q) : nat := Z.to_nat (Qfloor x).

(** [generateRandomContent(type, isFraudulent)].  [isFraudulent] is [None]
    when the argument is left out; [coin] and [pick] are what [Math.random]
    answers to the default value and to the index.  [None] stands for
    [undefined], the element at an index outside the array. *)
Definition generateRandomContent (t : ContentType)
  (isFraudulent : option bool) (coin pick : Q) : option jsstring :=
  let fraudulent :=
    match isFraudulent with
    | Some b => b
    | None => negb (Qle_bool coin 0.5)
    end in
  match t with
  | Email =>
    let contentArray := sampleEmails fraudulent in
    let randomIndex :=
      floorIndex (pick * inject_Z (Z.of_nat (List.length contentArray))) in
    match nth_error contentArray randomIndex with
    | Some emailObj =>
      Some (utf16 "Subject: " ++ utf16 (subject emailObj)
            ++ [10; 10]%N ++ utf16 (content_ emailObj))
    | None => None
    end
  | Sms =>
    let contentArray := sampleSms fraudulent in
    let randomIndex :=
      floorIndex (pick * inject_Z (Z.of_nat (List.length contentArray))) in
    option_map utf16 (nth_error contentArray randomIndex)
  | Url =>
    let contentArray := sampleUrls fraudulent in
    let randomIndex :=
      floorIndex (pick * inject_Z (Z.of_nat (List.length contentArray))) in
    option_map utf16 (nth_error contentArray randomIndex)
  end.

(* --------------------------------------------------------------------- *)
(** *** Notions used by the further properties *)

Section Intercepted.

Context {platform : URLParser}.

(** The alerts of the clicks and manual tests of a run, oldest first: the
    ones the two counters count and the parent is told about. *)
Definition intercepted (es : list (bool * Event)) : list FraudAlert :=
  flat_map (fun be =>
              match snd be with
              | Click _ _ | ManualTest _ _ _ =>
                match evaluation (fst be) (snd be) with
                | Some alert => [alert]
                | None => []
                end
              | NodeAdded _ _ | DismissPopup | ProceedAnyway | ClearAlerts =>
                []
              end) es.

End Intercepted.

(** The contents [generateRandomContent] can return for a content type and
    a kind of sample, in the order of the arrays. *)
Definition renderedSamples (t : ContentType) (fraudulent : bool)
  : list jsstring :=
  match t with
  | Email =>
    map (fun emailObj =>
           utf16 "Subject: " ++ utf16 (subject emailObj)
           ++ [10; 10]%N ++ utf16 (content_ emailObj))
      (sampleEmails fraudulent)
  | Sms => map utf16 (sampleSms fraudulent)
  | Url => map utf16 (sampleUrls fraudulent)
  end.

(** No two reasons that exclude each other in the structural stage, and the
    malformed-URL reason only alone. *)
Definition exclusive (rs : list string) : bool :=
  let has r := existsb (String.eqb r) rs in
  (negb (has "High-risk top-level domain"
         && has "Suspicious top-level domain")
   && negb (has "Excessive subdomain nesting"
            && has "Multiple subdomains detected")
   && (negb (has "Malformed URL structure")
       || Nat.eqb (List.length rs) 1))%bool.

(** [anchored lits r]: the pattern [r] is [^] followed by the literal units
    [lits] and whatever comes after. *)
Fixpoint literalPrefix (lits : list cu) (r : RegExp.regex) : bool :=
  match lits with
  | [] => true
  | l :: lits' =>
    match r with
    | RegExp.Cat (RegExp.Cls false [m]) r' =>
      (cu_eqb m l && literalPrefix lits' r')%bool
    | _ => false
    end
  end.

Definition anchored (lits : list cu) (r : RegExp.regex) : bool :=
  match r with
  | RegExp.Cat RegExp.Bol r' => literalPrefix lits r'
  | _ => false
  end.


(** The elements of a list at the given positions, counted from [k]. *)
Fixpoint selectFrom {A : Type} (k : nat) (positions : list nat) (l : list A)
  : list A :=
  match l with
  | [] => []
  | x :: l' =>
    if existsb (Nat.eqb k) positions
    then x :: selectFrom (S k) positions l'
    else selectFrom (S k) positions l'
  end.

(** [evidence t c positions]: the patterns at these positions of the table
    of [t] all match [c], and their weights add up to 2, or to 1.2 while
    [c] is not safe content. *)
Definition evidence (t : ContentType) (c : jsstring) (positions : list nat)
  : bool :=
  let ps := selectFrom 0 positions (fraudPatterns t) in
  let w := sumQ (map weight ps) in
  (forallb (fun p => RegExp.test (pattern p) c) ps
   && (if Qle_bool 2 w then true
       else (Qle_bool 1.2 w && negb (isSafeContent t c))))%bool.

(** For each fraudulent sample of [randomContentGenerators], in the order
    of the arrays, positions of patterns of its table that match it. *)
Definition sampleEvidence (t : ContentType) : list (list nat) :=
  match t with
  | Url =>
    [[1; 5; 6]; [1; 6; 7]; [1; 5; 7]; [1; 3; 6]; [1; 5; 6]; [3; 4];
     [1; 6; 7]; [1; 5; 6]; [1; 6; 7]; [1; 2; 7]]%nat
  | Sms =>
    [[0; 1; 2]; [1; 2; 6]; [0; 1; 9]; [1; 2; 6]; [1; 2; 4]; [0; 1; 2]]%nat
  | Email =>
    [[0; 4; 11]; [0; 2; 11]; [2; 5; 11]; [2; 3; 11]]%nat
  end.
(* --------------------------------------------------------------------- *)
(** *** Lists and sums *)

Lemma subseq_nil_l {A : Type} (m : list A) : subseq [] m.
Proof. induction m; constructor; assumption. Qed.

Lemma subseq_refl {A : Type} (m : list A) : subseq m m.
Proof. induction m; constructor; assumption. Qed.

Lemma subseq_In {A : Type} (l m : list A) (x : A) :
  subseq l m -> In x l -> In x m.
Proof.
  induction 1 as [|y l m _ IH|y l m _ IH]; simpl; intros Hx.
  - assumption.
  - right. apply IH, Hx.
  - destruct Hx as [->|Hx]; [left; reflexivity|right; apply IH, Hx].
Qed.

Lemma subseq_NoDup {A : Type} (l m : list A) :
  subseq l m -> NoDup m -> NoDup l.
Proof.
  induction 1 as [|y l m _ IH|y l m Hs IH]; intros Hm.
  - constructor.
  - inversion Hm; subst. apply IH; assumption.
  - inversion Hm as [|? ? Hy Hm']; subst. constructor.
    + intros Hin. apply Hy. eapply subseq_In; eassumption.
    + apply IH, Hm'.
Qed.

Lemma subseq_map {A B : Type} (f : A -> B) (l m : list A) :
  subseq l m -> subseq (map f l) (map f m).
Proof. induction 1; simpl; constructor; assumption. Qed.

Lemma subseq_filter {A : Type} (f : A -> bool) (m : list A) :
  subseq (filter f m) m.
Proof.
  induction m as [|x m IH]; simpl.
  - constructor.
  - destruct (f x); constructor; assumption.
Qed.

Lemma subseq_app {A : Type} (l1 m1 l2 m2 : list A) :
  subseq l1 m1 -> subseq l2 m2 -> subseq (l1 ++ l2) (m1 ++ m2).
Proof.
  induction 1; simpl; intros H2;
    [exact H2 | apply subseq_skip; auto | apply subseq_take; auto].
Qed.

Lemma subseq_firstn {A : Type} (n : nat) (m : list A) :
  subseq (firstn n m) m.
Proof.
  revert n. induction m as [|x m IH]; intros [|n]; simpl.
  - constructor.
  - constructor.
  - apply subseq_nil_l.
  - apply subseq_take, IH.
Qed.

Lemma sumQ_app (xs ys : list Q) : sumQ (xs ++ ys) == sumQ xs + sumQ ys.
Proof.
  induction xs as [|x xs IH]; simpl.
  - ring.
  - rewrite IH. ring.
Qed.

Lemma sumW_app (hs ks : list Hit) : sumW (hs ++ ks) == sumW hs + sumW ks.
Proof. unfold sumW. rewrite map_app. apply sumQ_app. Qed.

Lemma sumQ_nonneg (xs : list Q) :
  (forall x, In x xs -> 0 <= x) -> 0 <= sumQ xs.
Proof.
  induction xs as [|x xs IH]; simpl; intros H.
  - lra.
  - assert (0 <= x) by (apply H; left; reflexivity).
    assert (0 <= sumQ xs) by (apply IH; intros; apply H; right; assumption).
    lra.
Qed.


(* --------------------------------------------------------------------- *)
(** *** The literals of the component compile *)

Lemma patterns_compile :
  forallb (fun t =>
             forallb (fun p => compiles (pattern p)) (fraudPatterns t)
             && forallb compiles (safeIndicators t))%bool
    [Url; Email; Sms]
  = true
  /\ forallb compiles inlineLiterals = true.
Proof. split; vm_compute; reflexivity. Qed.

(* --------------------------------------------------------------------- *)
(** *** Hits *)

Lemma Extends_reasons (a a' : Acc) (hs : list Hit) :
  Extends a hs a' -> matchedReasons a' = matchedReasons a ++ map snd hs.
Proof.
  induction 1 as [|hs a' w r _ IH]; simpl.
  - rewrite app_nil_r. reflexivity.
  - rewrite IH, map_app, app_assoc. reflexivity.
Qed.

Lemma Extends_weight (a a' : Acc) (hs : list Hit) :
  Extends a hs a' -> totalWeight a' == totalWeight a + sumW hs.
Proof.
  induction 1 as [|hs a' w r _ IH]; simpl.
  - unfold sumW; simpl; ring.
  - rewrite IH, sumW_app. unfold sumW; simpl; ring.
Qed.

Lemma Extends_trans (a b c : Acc) (hs ks : list Hit) :
  Extends a hs b -> Extends b ks c -> Extends a (hs ++ ks) c.
Proof.
  intros Hab Hbc. induction Hbc as [|ks c w r _ IH].
  - rewrite app_nil_r. exact Hab.
  - rewrite app_assoc. constructor. exact IH.
Qed.

(* --------------------------------------------------------------------- *)
(** *** The stages of an evaluation as hits *)

Lemma checkPattern_Extends (mult : Q) (content : jsstring) (a : Acc)
  (p : Pattern) :
  Extends a (ruleHits mult [p] content) (checkPattern mult content a p).
Proof.
  unfold ruleHits, checkPattern; simpl.
  destruct (RegExp.test (pattern p) content); simpl.
  - apply (Extends_hit (hs := [])). constructor.
  - constructor.
Qed.

Lemma ruleHits_cons mult p ps content :
  ruleHits mult (p :: ps) content
  = ruleHits mult [p] content ++ ruleHits mult ps content.
Proof.
  unfold ruleHits; simpl.
  destruct (RegExp.test (pattern p) content); reflexivity.
Qed.

Lemma checkPatterns_Extends (mult : Q) (ps : list Pattern)
  (content : jsstring) (a : Acc) :
  Extends a (ruleHits mult ps content) (checkPatterns mult ps content a).
Proof.
  revert a. induction ps as [|p ps IH]; intros a.
  - constructor.
  - rewrite ruleHits_cons. unfold checkPatterns; simpl.
    eapply Extends_trans; [apply checkPattern_Extends|apply IH].
Qed.

Lemma ruleHits_reasons mult ps content :
  map snd (ruleHits mult ps content)
  = map reason (filter (fun p => RegExp.test (pattern p) content) ps).
Proof. unfold ruleHits. rewrite map_map. reflexivity. Qed.

Lemma ruleHits_weight mult ps content :
  sumW (ruleHits mult ps content)
  == sumQ (map weight
             (filter (fun p => RegExp.test (pattern p) content) ps)) * mult.
Proof.
  unfold ruleHits, sumW. rewrite map_map; simpl.
  induction (filter (fun p => RegExp.test (pattern p) content) ps)
    as [|p l IH]; simpl.
  - ring.
  - rewrite IH. ring.
Qed.

Ltac split_conditions :=
  repeat match goal with
         | |- context [if ?c then _ else _] => destruct c
         end.

Ltac solve_subseq :=
  cbn [app];
  repeat first [apply subseq_nil | apply subseq_take | apply subseq_skip].

Ltac solve_hits :=
  eexists; split; [|split];
  [ | repeat apply Extends_hit; apply Extends_none
    | repeat apply Extends_hit; apply Extends_none ];
  solve_subseq.

Section Stages.

Context {platform : URLParser}.

Lemma ruleStage_reasons t content :
  matchedReasons (ruleStage t content) = map reason (matched t content).
Proof.
  unfold ruleStage, matched.
  rewrite (Extends_reasons (checkPatterns_Extends _ _ _ _)).
  simpl. apply ruleHits_reasons.
Qed.

Lemma ruleStage_weight t content :
  totalWeight (ruleStage t content)
  == ruleWeight t content * safeContentMultiplier t content.
Proof.
  unfold ruleStage, ruleWeight, matched.
  rewrite (Extends_weight (checkPatterns_Extends _ _ _ _)).
  rewrite ruleHits_weight. simpl. ring.
Qed.

(** The checks of a content type add a selection of [extraTable], and the
    selection depends on the reasons found so far, not on the total. *)
Lemma typeChecks_Extends t content (rs : list string) (w1 w2 : Q) :
  exists hs,
    subseq hs (extraTable t)
    /\ Extends {| totalWeight := w1; matchedReasons := rs |} hs
         (typeChecks t content {| totalWeight := w1; matchedReasons := rs |})
    /\ Extends {| totalWeight := w2; matchedReasons := rs |} hs
         (typeChecks t content {| totalWeight := w2; matchedReasons := rs |}).
Proof.
  destruct t; unfold typeChecks; cbn [ContentType_eqb].
  - unfold urlChecks. destruct (newURL (urlInput content)) as [url|].
    + unfold urlStructure. split_conditions; solve_hits.
    + solve_hits.
  - unfold emailChecks. split_conditions; solve_hits.
  - unfold smsChecks. cbn [matchedReasons]. split_conditions; solve_hits.
Qed.

Lemma score_Extends t content :
  exists hs,
    subseq hs (extraTable t)
    /\ Extends (ruleStage t content) hs (score t content)
    /\ extraWeight t content == sumW hs
    /\ extraReasons t content = map snd hs.
Proof.
  unfold score, extraWeight, extraReasons.
  destruct (ruleStage t content) as [w rs] eqn:E. cbn [matchedReasons].
  destruct (typeChecks_Extends t content rs w 0) as (hs & Hs & H1 & H2).
  exists hs. repeat split; try assumption.
  - rewrite (Extends_weight H2). simpl. ring.
  - unfold score. rewrite E. rewrite (Extends_reasons H1). simpl.
    rewrite skipn_app, skipn_all, Nat.sub_diag. reflexivity.
Qed.

(** The collected reasons: those of the matched patterns, in table order,
    then those of the checks of the content type. *)
Lemma score_reasons t content :
  matchedReasons (score t content)
  = map reason (matched t content) ++ extraReasons t content.
Proof.
  destruct (score_Extends t content) as (hs & _ & He & _ & ->).
  rewrite (Extends_reasons He), ruleStage_reasons. reflexivity.
Qed.

End Stages.

(* --------------------------------------------------------------------- *)
(** *** Thresholds and confidence *)

Lemma Qle_bool_false (x y : Q) : Qle_bool x y = false <-> y < x.
Proof.
  split; intros H.
  - apply Qnot_le_lt. intros Hle. apply Qle_bool_iff in Hle. congruence.
  - destruct (Qle_bool x y) eqn:E; [|reflexivity].
    apply Qle_bool_iff in E. lra.
Qed.

Lemma threatOf_spec (w : Q) :
  (2.0 <= w /\ threatOf w = Some High)
  \/ (w < 2.0 /\ 1.2 <= w /\ threatOf w = Some Medium)
  \/ (w < 1.2 /\ 0.6 <= w /\ threatOf w = Some Low)
  \/ (w < 0.6 /\ threatOf w = None).
Proof.
  unfold threatOf.
  destruct (Qle_bool 2.0 w) eqn:E1.
  { left. apply Qle_bool_iff in E1. auto. }
  apply Qle_bool_false in E1.
  destruct (Qle_bool 1.2 w) eqn:E2.
  { right; left. apply Qle_bool_iff in E2. auto. }
  apply Qle_bool_false in E2.
  destruct (Qle_bool 0.6 w) eqn:E3.
  { right; right; left. apply Qle_bool_iff in E3. auto. }
  apply Qle_bool_false in E3. right; right; right. auto.
Qed.

Lemma inject_nat_pos (n : nat) : (0 < n)%nat -> 1 <= inject_Z (Z.of_nat n).
Proof.
  intros H. change 1 with (inject_Z 1). rewrite <- Zle_Qle. lia.
Qed.

Lemma confidenceOf_bounds (w : Q) (n : nat) :
  0.6 <= w -> (0 < n)%nat ->
  0.25 <= confidenceOf w n /\ confidenceOf w n <= 0.99.
Proof.
  intros Hw Hn. unfold confidenceOf. split.
  - apply inject_nat_pos in Hn.
    apply Q.min_glb; [|lra].
    assert (0.2 <= Qmin (w / 3) 0.98).
    { apply Q.min_glb; [|lra].
      apply Qle_shift_div_l; lra. }
    assert (0.05 <= Qmin (inject_Z (Z.of_nat n) * 0.05) 0.15).
    { apply Q.min_glb; lra. }
    lra.
  - apply Q.le_min_r.
Qed.

Section Results.

Context {platform : URLParser}.

(** What a non-null result is made of. *)
Lemma analyzeContent_Some isEnabled now t text a :
  analyzeContent isEnabled now t text = Some a ->
  isEnabled = true
  /\ truthy (trim text) = true
  /\ matchedReasons (score t text) <> []
  /\ threatOf (totalWeight (score t text)) = Some (threat a)
  /\ confidence a
     = confidenceOf (totalWeight (score t text))
         (List.length (matchedReasons (score t text)))
  /\ reasons a = firstn 10 (matchedReasons (score t text))
  /\ content a = slice0 300 text
  /\ type a = t
  /\ blocked a
     = (Threat_eqb (threat a) High
        || (Threat_eqb (threat a) Medium
            && negb (Qle_bool (confidence a) 0.75)))%bool.
Proof.
  unfold analyzeContent.
  destruct isEnabled; [|discriminate].
  destruct (truthy (trim text)); [|discriminate].
  cbn [negb orb].
  destruct (matchedReasons (score t text)) as [|r rs] eqn:Er;
    [discriminate|].
  cbn [List.length Nat.eqb].
  destruct (threatOf (totalWeight (score t text))) as [th|] eqn:Et;
    [|discriminate].
  intros H. inversion H; subst; clear H. cbn.
  repeat split; try reflexivity. discriminate.
Qed.

(** When the function runs to its end it returns a result. *)
Lemma analyzeContent_returns now t content :
  truthy (trim content) = true ->
  matchedReasons (score t content) <> [] ->
  0.6 <= totalWeight (score t content) ->
  exists a, analyzeContent true now t content = Some a.
Proof.
  intros Hc Hr Hw. unfold analyzeContent. rewrite Hc. cbn [negb orb].
  destruct (matchedReasons (score t content)) as [|r rs] eqn:Er;
    [congruence|].
  cbn [List.length Nat.eqb].
  destruct (threatOf_spec (totalWeight (score t content)))
    as [[_ E]|[(_ & _ & E)|[(_ & _ & E)|[Hlt _]]]];
    try (rewrite E; eexists; reflexivity).
  lra.
Qed.

End Results.

(* --------------------------------------------------------------------- *)
(** *** Classes of non-ASCII letters never match ASCII text *)

Lemma canonicalize_ascii (x : cu) :
  isAscii x = true -> isAscii (canonicalize x) = true.
Proof.
  intros H. unfold canonicalize, toUpperUnit. rewrite H.
  unfold isAscii in *. apply N.ltb_lt in H.
  destruct (N.leb_spec 128 x) as [Hge|_]; [lia|]. cbn [andb].
  apply N.ltb_lt. destruct (in_range 97%N 122%N x); lia.
Qed.

Lemma classTest_foreign (ms : list cu) (x : cu) :
  forallb (fun m => negb (isAscii (canonicalize m))) ms = true ->
  isAscii x = true ->
  RegExp.classTest true false (RegExp.classMembers true ms) x = false.
Proof.
  intros Hms Hx. unfold RegExp.classTest, RegExp.classMembers. cbn [xorb].
  apply canonicalize_ascii in Hx.
  induction ms as [|m ms IH]; [reflexivity|].
  simpl in Hms. apply andb_true_iff in Hms. destruct Hms as [Hm Hms].
  cbn [map existsb]. rewrite (IH Hms), orb_false_r.
  unfold cu_eqb. apply N.eqb_neq. intros E. rewrite <- E in Hm.
  rewrite Hx in Hm. discriminate.
Qed.

Lemma advance_carry (p : cu -> bool) (s : jsstring) (v : RegExp.posset)
  (carry : bool) :
  forallb (fun x => negb (p x)) s = true ->
  existsb (fun b => b) (RegExp.advance p s v carry)
  = (carry && match v with [] => false | _ :: _ => true end)%bool.
Proof.
  revert s carry. induction v as [|b v IH]; intros s carry Hs.
  - simpl. rewrite andb_false_r. reflexivity.
  - destruct s as [|c s]; simpl.
    + rewrite orb_false_r, andb_true_r. reflexivity.
    + simpl in Hs. apply andb_true_iff in Hs. destruct Hs as [Hc Hs].
      apply negb_true_iff in Hc. rewrite Hc, andb_false_r.
      rewrite (IH s false Hs), orb_false_r, andb_true_r. reflexivity.
Qed.

Lemma union_none (v w : RegExp.posset) :
  existsb (fun b => b) v = false ->
  existsb (fun b => b) w = false ->
  existsb (fun b => b) (RegExp.union v w) = false.
Proof.
  revert w. induction v as [|a v IH]; intros [|b w]; simpl; try reflexivity.
  intros Hv Hw. apply orb_false_iff in Hv, Hw.
  destruct Hv as [-> Hv], Hw as [-> Hw]. simpl. apply IH; assumption.
Qed.

Lemma foreignLetters_run (r : RegExp.regex) (s : jsstring)
  (v : RegExp.posset) :
  foreignLetters r = true ->
  forallb isAscii s = true ->
  existsb (fun b => b) (RegExp.run true r s v) = false.
Proof.
  intros Hr Hs. revert v.
  induction r as [| |neg ms| | | |a IHa b IHb|a IHa b IHb|a IHa];
    try discriminate; intros v.
  - destruct neg; [discriminate|]. cbn [foreignLetters] in Hr.
    cbn [RegExp.run]. rewrite advance_carry; [reflexivity|].
    apply forallb_forall. intros x Hx. apply negb_true_iff.
    apply classTest_foreign; [exact Hr|].
    rewrite forallb_forall in Hs. apply Hs, Hx.
  - cbn [foreignLetters] in Hr. apply andb_true_iff in Hr.
    destruct Hr as [Ha Hb]. cbn [RegExp.run].
    apply union_none; [apply IHa, Ha|apply IHb, Hb].
Qed.

(** The homograph check of the structural stage cannot fire on an ASCII
    host name. *)
Lemma suspiciousChars_ascii (s : jsstring) :
  forallb isAscii s = true -> RegExp.test suspiciousChars s = false.
Proof.
  intros Hs. unfold RegExp.test.
  assert (Hr : match RegExp.compile suspiciousChars with
               | Some r => foreignLetters r
               | None => true
               end = true) by (vm_compute; reflexivity).
  destruct (RegExp.compile suspiciousChars) as [r|]; [|reflexivity].
  change (RegExp.ignoreCase suspiciousChars) with true.
  unfold RegExp.matches. apply foreignLetters_run; assumption.
Qed.

(* --------------------------------------------------------------------- *)
(** *** The tables *)

Lemma distinct_NoDup (l : list string) : distinct l = true -> NoDup l.
Proof.
  induction l as [|x l IH]; simpl; intros H.
  - constructor.
  - apply andb_true_iff in H. destruct H as [Hx Hl]. constructor.
    + intros Hin. apply negb_true_iff in Hx.
      assert (existsb (String.eqb x) l = true).
      { apply existsb_exists. exists x. split; [exact Hin|].
        apply String.eqb_refl. }
      congruence.
    + apply IH, Hl.
Qed.

Lemma reasons_distinct (t : ContentType) :
  NoDup (map reason (fraudPatterns t) ++ map snd (quietExtraTable t)).
Proof. apply distinct_NoDup. destruct t; vm_compute; reflexivity. Qed.


Lemma fraudPatterns_weights (t : ContentType) (p : Pattern) :
  In p (fraudPatterns t) -> 0 <= weight p.
Proof.
  assert (H : forallb (fun p => Qle_bool 0 (weight p)) (fraudPatterns t)
              = true) by (destruct t; vm_compute; reflexivity).
  rewrite forallb_forall in H. intros Hp. apply Qle_bool_iff, H, Hp.
Qed.

Lemma extraTable_weights (t : ContentType) (h : Hit) :
  In h (extraTable t) -> 0 <= fst h.
Proof.
  assert (H : forallb (fun h => Qle_bool 0 (fst h)) (extraTable t) = true)
    by (destruct t; vm_compute; reflexivity).
  rewrite forallb_forall in H. intros Hh. apply Qle_bool_iff, H, Hh.
Qed.

Lemma multiplier_range (t : ContentType) (content : jsstring) :
  0.6 <= safeContentMultiplier t content <= 1.
Proof.
  unfold safeContentMultiplier.
  destruct (isSafeContent t content); split; lra.
Qed.

Lemma sumW_nonneg (tbl hs : list Hit) :
  (forall h, In h tbl -> 0 <= fst h) -> subseq hs tbl -> 0 <= sumW hs.
Proof.
  intros Htbl Hs. unfold sumW. apply sumQ_nonneg.
  intros x Hx. apply in_map_iff in Hx. destruct Hx as (h & <- & Hh).
  apply Htbl. eapply subseq_In; eassumption.
Qed.





(* --------------------------------------------------------------------- *)
(** *** Blank content *)







(* --------------------------------------------------------------------- *)
(** *** Monotonicity of the classifier *)



(* --------------------------------------------------------------------- *)
(** *** The structural stage on ASCII host names *)

Ltac solve_quiet_hits :=
  eexists; split; [|repeat apply Extends_hit; apply Extends_none];
  solve_subseq.

Lemma typeChecks_quiet {platform : URLParser} (t : ContentType)
  (content : jsstring) (a : Acc) :
  asciiHosts platform ->
  exists hs,
    subseq hs (quietExtraTable t) /\ Extends a hs (typeChecks t content a).
Proof.
  intros Hascii.
  destruct t; unfold typeChecks; cbn [ContentType_eqb].
  - let l := eval vm_compute in (quietExtraTable Url) in
    change (quietExtraTable Url) with l.
    unfold urlChecks.
    destruct (newURL (urlInput content)) as [url|] eqn:E.
    + unfold urlStructure.
      rewrite (@suspiciousChars_ascii _ (Hascii _ _ E)).
      split_conditions; solve_quiet_hits.
    + solve_quiet_hits.
  - let l := eval vm_compute in (quietExtraTable Email) in
    change (quietExtraTable Email) with l.
    unfold emailChecks. split_conditions; solve_quiet_hits.
  - let l := eval vm_compute in (quietExtraTable Sms) in
    change (quietExtraTable Sms) with l.
    unfold smsChecks. split_conditions; solve_quiet_hits.
Qed.

(* --------------------------------------------------------------------- *)
(** *** The alert history *)

Lemma firstn_push {A : Type} (n k : nat) (l m : list A) (a : A) :
  (k <= S n)%nat ->
  firstn k (l ++ a :: firstn n m) = firstn k (l ++ a :: m).
Proof.
  revert k. induction l as [|x l IH]; intros [|k] Hk; try reflexivity.
  - simpl. rewrite firstn_firstn, Nat.min_l by lia. reflexivity.
  - simpl. f_equal. apply IH. lia.
Qed.

Lemma pushAlert_length (a : FraudAlert) (prev : list FraudAlert) :
  (List.length (pushAlert a prev) <= 10)%nat.
Proof.
  unfold pushAlert. cbn [List.length].
  pose proof (firstn_le_length 9 prev). lia.
Qed.

Section History.

Context {platform : URLParser}.

Lemma step_alerts (isEnabled : bool) (e : Event) (s : State) :
  alerts (step isEnabled e s)
  = match e with
    | ClearAlerts => []
    | _ => match evaluation isEnabled e with
           | Some a => pushAlert a (alerts s)
           | None => alerts s
           end
    end.
Proof.
  destruct e; unfold step; try reflexivity;
    destruct (evaluation isEnabled _); reflexivity.
Qed.

Lemma step_bounded (isEnabled : bool) (e : Event) (s : State) :
  (List.length (alerts s) <= 10)%nat ->
  (List.length (alerts (step isEnabled e s)) <= 10)%nat.
Proof.
  intros H. rewrite step_alerts.
  destruct e as [h n|tc n|tt tc n| | |].
  1-3: destruct (evaluation isEnabled _);
    [apply pushAlert_length|exact H].
  1-2: exact H.
  simpl; lia.
Qed.

Lemma run_bounded (es : list (bool * Event)) (s : State) :
  (List.length (alerts s) <= 10)%nat ->
  (List.length (alerts (run es s)) <= 10)%nat.
Proof.
  revert s. induction es as [|[b e] es IH]; intros s H.
  - exact H.
  - apply IH. apply step_bounded, H.
Qed.

Lemma results_cons (b : bool) (e : Event) (es : list (bool * Event)) :
  results ((b, e) :: es)
  = match evaluation b e with Some a => [a] | None => [] end ++ results es.
Proof. reflexivity. Qed.

(** One step that does not clear the history, seen through the first ten
    entries of a list that ends with the history. *)
Lemma step_history (b : bool) (e : Event) (s : State)
  (l : list FraudAlert) :
  clears (b, e) = false ->
  firstn 10 (l ++ alerts (step b e s))
  = firstn 10
      (l ++ rev match evaluation b e with Some a => [a] | None => [] end
         ++ alerts s).
Proof.
  intros Hc. rewrite step_alerts.
  destruct e as [h n|tc n|tt tc n| | |]; try discriminate Hc;
    try reflexivity;
    destruct (evaluation b _) as [a|]; try reflexivity;
    cbn [rev app]; unfold pushAlert; apply firstn_push; lia.
Qed.

(** The history is the ten most recent results since it was last cleared,
    newest first. *)
Lemma run_history (es : list (bool * Event)) (s : State) :
  firstn 10 (alerts (run es s))
  = if existsb clears es
    then firstn 10 (rev (results (sinceClear es)))
    else firstn 10 (rev (results es) ++ alerts s).
Proof.
  revert s. induction es as [|[b e] es IH]; intros s.
  - reflexivity.
  - change (run ((b, e) :: es) s) with (run es (step b e s)).
    rewrite IH. cbn [existsb sinceClear].
    destruct (existsb clears es) eqn:Ees.
    + rewrite orb_true_r. reflexivity.
    + rewrite orb_false_r.
      destruct (clears (b, e)) eqn:Ec.
      * destruct e; try discriminate Ec. cbn [step alerts].
        rewrite app_nil_r. reflexivity.
      * rewrite results_cons, rev_app_distr, <- app_assoc.
        apply step_history, Ec.
Qed.

Lemma sinceClear_none (es : list (bool * Event)) :
  existsb clears es = false -> sinceClear es = es.
Proof.
  destruct es as [|be es]; [reflexivity|]. cbn [existsb sinceClear].
  intros H. apply orb_false_iff in H. destruct H as [-> ->]. reflexivity.
Qed.

End History.

(* --------------------------------------------------------------------- *)
(** *** The reference parser serialises hosts in ASCII *)

Lemma asciiLower_ascii (c : cu) :
  RefURL.hostUnitOk c = true -> isAscii (RefURL.asciiLower c) = true.
Proof.
  unfold RefURL.hostUnitOk, RefURL.asciiLower, isAscii, in_range.
  intros H. repeat (apply andb_true_iff in H; destruct H as [H ?]).
  apply N.ltb_lt in H. apply N.ltb_lt.
  destruct (N.leb_spec 65 c); destruct (N.leb_spec c 90); simpl; lia.
Qed.

Lemma assemble_ascii scheme host0 portDigits path query fragment u :
  RefURL.assemble scheme host0 portDigits path query fragment = Some u ->
  forallb isAscii (hostname u) = true.
Proof.
  unfold RefURL.assemble.
  match goal with |- context [if ?c then Some _ else None] =>
    destruct c eqn:E end; [|discriminate].
  intros H. inversion H; subst; clear H. cbn [hostname].
  repeat (apply andb_true_iff in E; destruct E as [E ?]).
  match goal with H : forallb RefURL.hostUnitOk host0 = true |- _ =>
    rename H into Hhost end.
  rewrite forallb_forall in Hhost. apply forallb_forall.
  intros c Hc. apply in_map_iff in Hc. destruct Hc as (c0 & <- & Hc0).
  apply asciiLower_ascii, Hhost, Hc0.
Qed.

Lemma refURL_asciiHosts : asciiHosts refURL.
Proof.
  intros input u. cbn [newURL refURL]. unfold RefURL.parse.
  repeat match goal with
         | |- context [let (_, _) := ?x in _] => destruct x
         end.
  destruct (RefURL.afterMark _); [|discriminate].
  repeat match goal with
         | |- context [let (_, _) := ?x in _] => destruct x
         end.
  apply assemble_ascii.
Qed.

(* ===================================================================== *)
(** ** The properties of the specification *)
(* ===================================================================== *)

Section Claims.

Context {platform : URLParser}.



(** C3: the evaluation returns null when the engine is disabled or the
    content is empty or whitespace only, and when no reason was collected,
    that is when no pattern of the table matched and the checks of the
    content type pushed nothing; an evaluation that returns null leaves the
    component state, and so the alert history, as it was. *)
Theorem C3_null_results (isEnabled : bool) (now : Stamp) (t : ContentType)
  (content : jsstring) (s : State) :
  (isEnabled = false \/ truthy (trim content) = false ->
   analyzeContent isEnabled now t content = None)
  /\ (matchedReasons (score t content) = [] ->
      analyzeContent isEnabled now t content = None)
  /\ (matched t content = [] -> extraReasons t content = [] ->
      analyzeContent isEnabled now t content = None)
  /\ (analyzeContent isEnabled now t content = None ->
      step isEnabled (ManualTest t content now) s = s)
  /\ (analyzeContent isEnabled now Url content = None ->
      step isEnabled (Click content now) s = s)
  /\ (analyzeContent isEnabled now Email content = None ->
      step isEnabled (NodeAdded content now) s = s).
Proof.
  assert (Hzero : matchedReasons (score t content) = [] ->
                  analyzeContent isEnabled now t content = None).
  { intros H. unfold analyzeContent. rewrite H.
    destruct (negb isEnabled || negb (truthy (trim content)))%bool;
      reflexivity. }
  split; [|split; [exact Hzero|split; [|repeat split]]].
  - unfold analyzeContent. intros [->| ->]; [reflexivity|].
    rewrite orb_true_r. reflexivity.
  - intros Hm Hx. apply Hzero. rewrite score_reasons, Hm, Hx. reflexivity.
  - intros H. unfold step, evaluation. rewrite H.
    destruct (negb (truthy (trim content))); reflexivity.
  - intros H. unfold step, evaluation. rewrite H.
    destruct (isEnabled && truthy content)%bool; reflexivity.
  - intros H. unfold step, evaluation. rewrite H.
    match goal with |- context [if ?c then _ else _] => destruct c end;
      reflexivity.
Qed.

(** C4: the confidence of a non-null result is
    min(min(totalWeight / 3, 0.98) + min(reasonCount * 0.05, 0.15), 0.99),
    where reasonCount counts the collected reasons before the list is cut
    to its first ten entries. *)
Theorem C4_confidence_formula (isEnabled : bool) (now : Stamp)
  (t : ContentType) (content : jsstring) (a : FraudAlert) :
  analyzeContent isEnabled now t content = Some a ->
  let w := totalWeight (score t content) in
  let reasonCount := List.length (matchedReasons (score t content)) in
  confidence a
  == Qmin (Qmin (w / 3) 0.98
           + Qmin (inject_Z (Z.of_nat reasonCount) * 0.05) 0.15) 0.99
  /\ reasons a = firstn 10 (matchedReasons (score t content)).
Proof.
  intros H. apply analyzeContent_Some in H.
  destruct H as (_ & _ & _ & _ & Hc & Hr & _).
  cbv zeta. rewrite Hc, Hr. split; reflexivity.
Qed.

(** C5: a non-null result is blocked exactly when its threat level is high,
    or medium with a confidence strictly above 0.75; a low result is never
    blocked. *)
Theorem C5_blocked_flag (isEnabled : bool) (now : Stamp) (t : ContentType)
  (content : jsstring) (a : FraudAlert) :
  analyzeContent isEnabled now t content = Some a ->
  (blocked a = true <->
   threat a = High \/ (threat a = Medium /\ 0.75 < confidence a))
  /\ (threat a = Low -> blocked a = false).
Proof.
  intros H. apply analyzeContent_Some in H.
  destruct H as (_ & _ & _ & _ & _ & _ & _ & _ & Hb).
  rewrite Hb. destruct (threat a); cbn [Threat_eqb orb andb]; split.
  - split; [discriminate|]. intros [H|[H _]]; discriminate.
  - reflexivity.
  - rewrite negb_true_iff, Qle_bool_false. split.
    + intros H. right. split; [reflexivity|exact H].
    + intros [H|[_ H]]; [discriminate|exact H].
  - discriminate.
  - split; [left; reflexivity|reflexivity].
  - discriminate.
Qed.

(** C10: the confidence of a non-null result lies between 0.25 and 0.99:
    such a result has a total weight of at least 0.6 and at least one
    collected reason. *)
Theorem C10_confidence_range (isEnabled : bool) (now : Stamp)
  (t : ContentType) (content : jsstring) (a : FraudAlert) :
  analyzeContent isEnabled now t content = Some a ->
  0.25 <= confidence a /\ confidence a <= 0.99 /\ confidence a < 1
  /\ 0.6 <= totalWeight (score t content)
  /\ (1 <= List.length (matchedReasons (score t content)))%nat.
Proof.
  intros H. apply analyzeContent_Some in H.
  destruct H as (_ & _ & Hr & Ht & Hc & _).
  assert (Hw : 0.6 <= totalWeight (score t content)).
  { destruct (threatOf_spec (totalWeight (score t content)))
      as [[H1 E]|[(H1 & H2 & E)|[(H1 & H2 & E)|[H1 E]]]];
      try lra. congruence. }
  assert (Hn : (0 < List.length (matchedReasons (score t content)))%nat).
  { destruct (matchedReasons (score t content)); [congruence|simpl; lia]. }
  destruct (confidenceOf_bounds Hw Hn) as [Hlo Hhi].
  rewrite Hc. repeat split; try assumption; try lra.
Qed.





(** C7: whatever the events, the alert history never holds more than ten
    entries, and it is the ten most recent results since it was last
    cleared, newest first; so after fifteen non-null evaluations exactly
    the last ten remain and the five oldest are gone. *)
Theorem C7_alert_history (es : list (bool * Event)) :
  (List.length (alerts (run es initial)) <= 10)%nat
  /\ alerts (run es initial) = firstn 10 (rev (results (sinceClear es)))
  /\ (List.length (results (sinceClear es)) = 15%nat ->
      alerts (run es initial) = rev (skipn 5 (results (sinceClear es)))).
Proof.
  assert (Hlen : (List.length (alerts (run es initial)) <= 10)%nat).
  { apply run_bounded. simpl; lia. }
  assert (Hall : alerts (run es initial)
                 = firstn 10 (rev (results (sinceClear es)))).
  { rewrite <- (@firstn_all2 _ _ _ Hlen), run_history.
    destruct (existsb clears es) eqn:E; [reflexivity|].
    rewrite (sinceClear_none _ E). simpl. rewrite app_nil_r. reflexivity. }
  split; [exact Hlen|split; [exact Hall|]].
  intros H15. rewrite Hall, firstn_rev, H15. reflexivity.
Qed.

(** C8: when the URL constructor throws on the content (with [https://] in
    front when it does not start with [http]), the structural stage adds
    the weight 0.8 with the reason [Malformed URL structure] and nothing
    else, and the evaluation goes on to return a result. *)
Theorem C8_malformed_url (now : Stamp) (content : jsstring) :
  newURL (urlInput content) = None ->
  (forall a, urlChecks content a = hit 0.8 "Malformed URL structure" a)
  /\ matchedReasons (score Url content)
     = matchedReasons (ruleStage Url content) ++ ["Malformed URL structure"]
  /\ totalWeight (score Url content)
     == totalWeight (ruleStage Url content) + 0.8
  /\ (truthy (trim content) = true ->
      exists r, analyzeContent true now Url content = Some r).
Proof.
  intros Hparse.
  assert (Hu : forall a,
             urlChecks content a = hit 0.8 "Malformed URL structure" a).
  { intros a. unfold urlChecks. rewrite Hparse. reflexivity. }
  assert (Hs : score Url content
               = hit 0.8 "Malformed URL structure" (ruleStage Url content)).
  { unfold score, typeChecks. cbn [ContentType_eqb]. apply Hu. }
  split; [exact Hu|]. rewrite Hs. cbn [hit matchedReasons totalWeight].
  split; [reflexivity|split; [reflexivity|]].
  intros Hc. apply analyzeContent_returns; [exact Hc| |]; rewrite Hs;
    cbn [hit matchedReasons totalWeight].
  - destruct (matchedReasons (ruleStage Url content)); discriminate.
  - rewrite ruleStage_weight.
    assert (0 <= ruleWeight Url content).
    { apply sumQ_nonneg. intros x Hx.
      destruct (proj1 (in_map_iff _ _ _) Hx) as (p & <- & Hp).
      apply (@fraudPatterns_weights Url).
      exact (proj1 (proj1 (filter_In _ _ _) Hp)). }
    pose proof (multiplier_range Url content) as [Hm _].
    assert (0 <= ruleWeight Url content * safeContentMultiplier Url content).
    { apply Qmult_le_0_compat; [assumption|lra]. }
    lra.
Qed.

(** C9: each pattern of the table is tried once and contributes its weight
    and its reason at most once; the reasons of a table are pairwise
    distinct; and, the platform serialising host names in ASCII, the list
    of collected reasons and the reasons of a result have no duplicates. *)
Theorem C9_reasons_without_duplicates (t : ContentType)
  (content : jsstring) :
  asciiHosts platform ->
  subseq (matched t content) (fraudPatterns t)
  /\ NoDup (map reason (fraudPatterns t))
  /\ matchedReasons (ruleStage t content) = map reason (matched t content)
  /\ totalWeight (ruleStage t content)
     == sumQ (map weight (matched t content))
        * safeContentMultiplier t content
  /\ NoDup (matchedReasons (score t content))
  /\ (forall isEnabled now a,
        analyzeContent isEnabled now t content = Some a ->
        NoDup (reasons a)).
Proof.
  intros Hascii.
  pose proof (reasons_distinct t) as Hnd.
  assert (Hscore : NoDup (matchedReasons (score t content))).
  { unfold score.
    destruct (typeChecks_quiet t content (ruleStage t content) Hascii)
      as (hs & Hs & He).
    rewrite (Extends_reasons He), ruleStage_reasons.
    eapply subseq_NoDup; [|exact Hnd].
    apply subseq_app; apply subseq_map; [apply subseq_filter|exact Hs]. }
  split; [apply subseq_filter|].
  split; [eapply subseq_NoDup; [|exact Hnd];
          rewrite <- (app_nil_r (map reason _)) at 1;
          apply subseq_app; [apply subseq_refl|apply subseq_nil_l]|].
  split; [apply ruleStage_reasons|].
  split; [apply ruleStage_weight|].
  split; [exact Hscore|].
  intros isEnabled now a Ha. apply analyzeContent_Some in Ha.
  destruct Ha as (_ & _ & _ & _ & _ & -> & _).
  eapply subseq_NoDup; [apply subseq_firstn|exact Hscore].
Qed.

End Claims.

(* --------------------------------------------------------------------- *)
(** *** The claims on concrete inputs *)

Ltac evaluate := vm_compute; first [reflexivity | discriminate | congruence].

Ltac conjuncts := repeat match goal with |- _ /\ _ => split end.

(** Names the result of an evaluation that returns one. *)
Ltac name_result a E :=
  match goal with
  | |- exists r, ?x = Some r /\ _ =>
    let H := fresh in
    assert (H : exists r, x = Some r) by (vm_compute; eexists; reflexivity);
    destruct H as [a E]; exists a; split; [exact E|]
  end.



Lemma C3_witness :
  analyzeContent true epoch Sms (utf16 "   ") = None
  /\ step true (ManualTest Sms (utf16 "   ") epoch) initial = initial.
Proof.
  destruct (@C3_null_results _ true epoch Sms (utf16 "   ") initial)
    as (H1 & _ & _ & H3 & _).
  assert (H : analyzeContent true epoch Sms (utf16 "   ") = None).
  { apply H1. right. evaluate. }
  split; [exact H|exact (H3 H)].
Defined.

Lemma C4_witness :
  exists a,
    analyzeContent true epoch Email
      (utf16 "Please unsubscribe me!!! I won $5") = Some a
    /\ confidence a == Qmin (Qmin (1.47 / 3) 0.98 + Qmin (3 * 0.05) 0.15) 0.99.
Proof.
  name_result a E.
  destruct (@C4_confidence_formula _ _ _ _ _ _ E) as [H _].
  rewrite H. evaluate.
Defined.

Lemma C5_witness :
  exists a,
    analyzeContent true epoch Url (utf16 "https://x.y/login") = Some a
    /\ (blocked a = true <->
        threat a = High \/ (threat a = Medium /\ 0.75 < confidence a))
    /\ (threat a = Low -> blocked a = false).
Proof.
  name_result a E.
  exact (@C5_blocked_flag _ _ _ _ _ _ E).
Defined.

Lemma C10_witness :
  exists a,
    analyzeContent true epoch Url (utf16 "https://x.y/login") = Some a
    /\ 0.25 <= confidence a /\ confidence a <= 0.99.
Proof.
  name_result a E.
  destruct (@C10_confidence_range _ _ _ _ _ _ E) as (H1 & H2 & _).
  split; assumption.
Defined.



Lemma C7_witness :
  List.length (results (sinceClear fifteenTests)) = 15%nat
  /\ alerts (run fifteenTests initial)
     = rev (skipn 5 (results (sinceClear fifteenTests)))
  /\ map (fun a => idNow (id a)) (alerts (run fifteenTests initial))
     = [15; 14; 13; 12; 11; 10; 9; 8; 7; 6]%N.
Proof.
  assert (H : List.length (results (sinceClear fifteenTests)) = 15%nat)
    by (vm_compute; reflexivity).
  pose proof (proj2 (proj2 (@C7_alert_history _ fifteenTests)) H) as H3.
  split; [exact H|split; [exact H3|]].
  rewrite H3. vm_compute. reflexivity.
Defined.

Lemma C8_witness :
  let content := utf16 "bad url" in
  newURL (urlInput content) = None
  /\ matchedReasons (score Url content) = ["Malformed URL structure"]
  /\ exists r, analyzeContent true epoch Url content = Some r.
Proof.
  cbv zeta.
  assert (H : newURL (urlInput (utf16 "bad url")) = None)
    by (vm_compute; reflexivity).
  destruct (@C8_malformed_url _ epoch _ H) as (_ & Hr & _ & Hres).
  split; [exact H|split].
  - rewrite Hr. vm_compute. reflexivity.
  - apply Hres. vm_compute. reflexivity.
Defined.

Lemma C9_witness :
  asciiHosts refURL
  /\ NoDup (matchedReasons
              (score Url
                 (utf16 "https://secure-bankoamerica.tk/login?verify=suspended&urgent=true"))).
Proof.
  split; [exact refURL_asciiHosts|].
  exact (proj1 (proj2 (proj2 (proj2 (proj2
           (@C9_reasons_without_duplicates _ Url _ refURL_asciiHosts)))))).
Defined.

(** The absence of duplicates in C9 rests on the platform, not on the
    component: were host names kept as written, the homograph reason of the
    pattern table and the one of the structural stage would both be
    pushed. *)
Remark homograph_reason_pushed_twice :
  matchedReasons (@score verbatimHosts Url (utf16 "раураl.org"))
  = ["Possible homograph/character substitution attack";
     "Possible homograph/character substitution attack"].
Proof. vm_compute. reflexivity. Qed.

(** The scenarios of the specification, with the reference parser. *)
Example scenario_A :
  option_map (fun a => (threat a, blocked a, reasons a))
    (analyzeContent true epoch Url
       (utf16 "https://secure-bankoamerica.tk/login?verify=suspended&urgent=true"))
  = Some (High, true,
          ["Creates false urgency"; "Credential harvesting attempt";
           "Suspicious domain pattern with free TLD";
           "Suspicious URL parameters"; "High-risk top-level domain"]).
Proof. vm_compute. reflexivity. Qed.

Example scenario_B :
  analyzeContent true epoch Url (utf16 "https://www.github.com/org/repo")
  = None.
Proof. vm_compute. reflexivity. Qed.

Example scenario_C :
  option_map (fun a => (threat a, reasons a))
    (analyzeContent true epoch Sms
       (utf16 "CONGRATULATIONS! You've won $10,000! Click this link now to claim your prize before it expires: http://bit.ly/claim-now."))
  = Some (High,
          ["Prize scam indicators"; "Suspicious link request";
           "Creates false urgency"]).
Proof. vm_compute. reflexivity. Qed.

(* ===================================================================== *)
(** ** Further properties of the component *)
(* ===================================================================== *)

(* --------------------------------------------------------------------- *)
(** *** Weights and counts *)

Lemma sumW_floor (q : Q) (hs : list Hit) :
  (forall h, In h hs -> q <= fst h) ->
  q * inject_Z (Z.of_nat (List.length hs)) <= sumW hs.
Proof.
  induction hs as [|h hs IH]; intros H.
  - change (q * 0 <= 0). rewrite Qmult_0_r. apply Qle_refl.
  - assert (Hh : q <= fst h) by (apply H; left; reflexivity).
    assert (IH' : q * inject_Z (Z.of_nat (List.length hs)) <= sumW hs)
      by (apply IH; intros; apply H; right; assumption).
    change (sumW (h :: hs)) with (fst h + sumW hs).
    cbn [List.length]. rewrite Nat2Z.inj_succ, <- Z.add_1_r, inject_Z_plus.
    change (inject_Z 1) with 1. rewrite Qmult_plus_distr_r, Qmult_1_r. lra.
Qed.

Lemma fraudPatterns_floor (t : ContentType) (p : Pattern) :
  In p (fraudPatterns t) -> 0.4 <= weight p.
Proof.
  assert (H : forallb (fun p => Qle_bool 0.4 (weight p)) (fraudPatterns t)
              = true) by (destruct t; vm_compute; reflexivity).
  rewrite forallb_forall in H. intros Hp. apply Qle_bool_iff, H, Hp.
Qed.

Lemma extraTable_floor (t : ContentType) (h : Hit) :
  In h (extraTable t) -> 0.3 <= fst h.
Proof.
  assert (H : forallb (fun h => Qle_bool 0.3 (fst h)) (extraTable t) = true)
    by (destruct t; vm_compute; reflexivity).
  rewrite forallb_forall in H. intros Hh. apply Qle_bool_iff, H, Hh.
Qed.

Lemma ruleHits_floor (t : ContentType) (m : Q) (content : jsstring)
  (h : Hit) :
  0.6 <= m -> In h (ruleHits m (fraudPatterns t) content) -> 0.24 <= fst h.
Proof.
  intros Hm Hh. unfold ruleHits in Hh.
  destruct (proj1 (in_map_iff _ _ _) Hh) as (p & <- & Hp).
  pose proof (@fraudPatterns_floor t p
                (proj1 (proj1 (filter_In _ _ _) Hp))) as Hw.
  cbn [fst].
  assert (H1 : 0.4 * m <= weight p * m)
    by (apply Qmult_le_compat_r; [exact Hw|lra]).
  lra.
Qed.

Section Further.

Context {platform : URLParser}.

(** The two stages of an evaluation as one list of hits. *)
Lemma score_hits (t : ContentType) (content : jsstring) :
  exists hs,
    subseq hs (extraTable t)
    /\ totalWeight (score t content)
       == sumW (ruleHits (safeContentMultiplier t content) (fraudPatterns t)
                  content) + sumW hs
    /\ matchedReasons (score t content)
       = map snd (ruleHits (safeContentMultiplier t content)
                    (fraudPatterns t) content) ++ map snd hs
    /\ extraReasons t content = map snd hs.
Proof.
  destruct (score_Extends t content) as (hs & Hs & He & _ & Hr).
  exists hs. split; [exact Hs|]. split; [|split; [|exact Hr]].
  - rewrite (Extends_weight He). unfold ruleStage.
    rewrite (Extends_weight (checkPatterns_Extends _ _ _ _)). simpl. ring.
  - rewrite (Extends_reasons He). unfold ruleStage.
    rewrite (Extends_reasons (checkPatterns_Extends _ _ _ _)). reflexivity.
Qed.

(** X1: a result carries between one and ten reasons, the first ten of the
    collected ones: those of the matched patterns in table order, then
    those of the checks of the content type, all of them taken from the
    tables of its own content type; its content is the first 300 units of
    the evaluated content, and its type and the type in its id are the
    evaluated type. *)
Theorem X1_result_shape (isEnabled : bool) (now : Stamp) (t : ContentType)
  (text : jsstring) (a : FraudAlert) :
  analyzeContent isEnabled now t text = Some a ->
  (1 <= List.length (reasons a) <= 10)%nat
  /\ reasons a
     = firstn 10 (map reason (matched t text) ++ extraReasons t text)
  /\ (forall r, In r (reasons a) ->
        In r (map reason (fraudPatterns t))
        \/ In r (map snd (extraTable t)))
  /\ content a = firstn 300 text
  /\ (JS.length (content a) <= 300)%nat
  /\ type a = t
  /\ idType (id a) = t.
Proof.
  intros H. pose proof H as H0. apply analyzeContent_Some in H.
  destruct H as (_ & _ & Hne & _ & _ & Hr & Hc & Ht & _).
  split; [|split; [|split; [|split; [|split; [|split]]]]].
  - rewrite Hr, length_firstn.
    destruct (matchedReasons (score t text)); [congruence|].
    cbn [List.length]. lia.
  - rewrite Hr, score_reasons. reflexivity.
  - intros r Hin. rewrite Hr in Hin.
    apply (@subseq_In _ _ _ r (subseq_firstn _ _)) in Hin.
    destruct (score_Extends t text) as (hs & Hs & _ & _ & Hx).
    rewrite score_reasons, Hx in Hin. apply in_app_or in Hin.
    destruct Hin as [Hin|Hin].
    + left. eapply subseq_In; [|exact Hin].
      apply subseq_map, subseq_filter.
    + right. eapply subseq_In; [|exact Hin]. apply subseq_map, Hs.
  - exact Hc.
  - rewrite Hc. apply firstn_le_length.
  - exact Ht.
  - unfold analyzeContent in H0.
    destruct (negb isEnabled || negb (truthy (trim text)))%bool;
      [discriminate|].
    destruct (Nat.eqb _ 0); [discriminate|].
    destruct (threatOf _); [|discriminate].
    inversion H0; reflexivity.
Qed.

(** X2: every collected reason comes with a weight of at least 0.24 (the
    smallest pattern weight, 0.4, under the multiplier 0.6), so the total
    weight is at least 0.24 times the number of reasons; an evaluation of
    non-blank content by the enabled engine that collects three reasons or
    more therefore returns a result. *)
Theorem X2_three_reasons_suffice (now : Stamp) (t : ContentType)
  (content : jsstring) :
  let n := List.length (matchedReasons (score t content)) in
  0.24 * inject_Z (Z.of_nat n) <= totalWeight (score t content)
  /\ (truthy (trim content) = true -> (3 <= n)%nat ->
      exists a, analyzeContent true now t content = Some a).
Proof.
  cbv zeta.
  assert (Hfloor : 0.24 * inject_Z (Z.of_nat
                     (List.length (matchedReasons (score t content))))
                   <= totalWeight (score t content)).
  { destruct (score_hits t content) as (hs & Hs & Hw & Hr & _).
    rewrite Hw, Hr, length_app, !length_map, Nat2Z.inj_add, inject_Z_plus,
      Qmult_plus_distr_r.
    pose proof (@sumW_floor 0.24 _
                  (fun h => @ruleHits_floor t _ content h
                              (proj1 (multiplier_range t content)))) as H1.
    assert (H2 : 0.24 * inject_Z (Z.of_nat (List.length hs)) <= sumW hs).
    { apply sumW_floor. intros h Hh.
      pose proof (@extraTable_floor t h (@subseq_In _ _ _ h Hs Hh)). lra. }
    apply Qplus_le_compat; assumption. }
  split; [exact Hfloor|].
  intros Hc Hn. apply analyzeContent_returns; [exact Hc| |].
  - destruct (matchedReasons (score t content)); [simpl in Hn; lia|].
    discriminate.
  - assert (3 <= inject_Z (Z.of_nat
                     (List.length (matchedReasons (score t content))))).
    { change 3 with (inject_Z 3). rewrite <- Zle_Qle. lia. }
    lra.
Qed.

(** X3: the confidence of a result lies in a band set by its threat level:
    below 0.55 for low, from 0.45 to below 49/60 for medium, at least 43/60
    for high; so a confidence of 49/60 or more is a high threat and a
    confidence below 0.45 a low one. *)
Theorem X3_confidence_bands (isEnabled : bool) (now : Stamp)
  (t : ContentType) (content : jsstring) (a : FraudAlert) :
  analyzeContent isEnabled now t content = Some a ->
  (threat a = Low -> confidence a < 0.55)
  /\ (threat a = Medium -> 0.45 <= confidence a /\ confidence a < 49 # 60)
  /\ (threat a = High -> (43 # 60) <= confidence a)
  /\ ((49 # 60) <= confidence a -> threat a = High)
  /\ (confidence a < 0.45 -> threat a = Low).
Proof.
  intros H. apply analyzeContent_Some in H.
  destruct H as (_ & _ & Hne & Ht & Hc & _).
  set (w := totalWeight (score t content)) in *.
  set (n := List.length (matchedReasons (score t content))) in *.
  assert (Hn : 1 <= inject_Z (Z.of_nat n)).
  { apply inject_nat_pos. subst n.
    destruct (matchedReasons (score t content)); [congruence|simpl; lia]. }
  assert (Hbonus : 0.05 <= Qmin (inject_Z (Z.of_nat n) * 0.05) 0.15
                   /\ Qmin (inject_Z (Z.of_nat n) * 0.05) 0.15 <= 0.15).
  { split; [apply Q.min_glb; lra|apply Q.le_min_r]. }
  assert (Hlow : w < 1.2 -> confidence a < 0.55).
  { intros Hw. rewrite Hc. unfold confidenceOf.
    eapply Qle_lt_trans; [apply Q.le_min_l|].
    assert (Qmin (w / 3) 0.98 <= w / 3) by apply Q.le_min_l.
    assert (w / 3 < 0.4) by (apply Qlt_shift_div_r; lra).
    lra. }
  assert (Hmed1 : 1.2 <= w -> 0.45 <= confidence a).
  { intros Hw. rewrite Hc. unfold confidenceOf.
    apply Q.min_glb; [|lra].
    assert (0.4 <= Qmin (w / 3) 0.98).
    { apply Q.min_glb; [apply Qle_shift_div_l; lra|lra]. }
    lra. }
  assert (Hmed2 : w < 2 -> confidence a < 49 # 60).
  { intros Hw. rewrite Hc. unfold confidenceOf.
    eapply Qle_lt_trans; [apply Q.le_min_l|].
    assert (Qmin (w / 3) 0.98 <= w / 3) by apply Q.le_min_l.
    assert (w / 3 < 2 # 3) by (apply Qlt_shift_div_r; lra).
    lra. }
  assert (Hhigh : 2 <= w -> (43 # 60) <= confidence a).
  { intros Hw. rewrite Hc. unfold confidenceOf.
    apply Q.min_glb; [|lra].
    assert ((2 # 3) <= Qmin (w / 3) 0.98).
    { apply Q.min_glb; [apply Qle_shift_div_l; lra|lra]. }
    lra. }
  destruct (threatOf_spec w)
    as [[H1 E]|[(H1 & H2 & E)|[(H1 & H2 & E)|[H1 E]]]];
    rewrite E in Ht; try discriminate Ht; injection Ht as Hth;
    (split; [|split; [|split; [|split]]]); intros Hyp.
  - congruence.
  - congruence.
  - apply Hhigh; lra.
  - congruence.
  - exfalso. pose proof (Hhigh ltac:(lra)). lra.
  - congruence.
  - split; [apply Hmed1; lra|apply Hmed2; lra].
  - congruence.
  - exfalso. pose proof (Hmed2 ltac:(lra)). lra.
  - exfalso. pose proof (Hmed1 ltac:(lra)). lra.
  - apply Hlow; lra.
  - congruence.
  - congruence.
  - exfalso. pose proof (Hlow ltac:(lra)). lra.
  - congruence.
Qed.



End Further.

(* --------------------------------------------------------------------- *)
(** *** What a pattern needs of its subject

    Two facts about the matcher: no match ends anywhere when none can
    start, and a match of a class consumes a unit of the class. *)

Lemma existsb_nth (v : RegExp.posset) :
  existsb (fun b => b) v = true <-> exists j, nth j v false = true.
Proof.
  induction v as [|b v IH]; simpl.
  - split; [discriminate|]. intros [[|j] H]; discriminate.
  - rewrite orb_true_iff, IH. split.
    + intros [->|[j H]]; [exists O; reflexivity|exists (S j); exact H].
    + intros [[|j] H]; [left; exact H|right; exists j; exact H].
Qed.

Lemma advance_from_none (p : cu -> bool) (s : jsstring)
  (v : RegExp.posset) :
  existsb (fun b => b) v = false ->
  existsb (fun b => b) (RegExp.advance p s v false) = false.
Proof.
  revert s. induction v as [|b v IH]; intros s H; [reflexivity|].
  simpl in H. apply orb_false_iff in H. destruct H as [-> Hv].
  destruct s as [|c s]; simpl; [reflexivity|]. apply IH, Hv.
Qed.

Lemma onlyLast_from_none (v : RegExp.posset) :
  existsb (fun b => b) v = false ->
  existsb (fun b => b) (RegExp.onlyLast v) = false.
Proof.
  induction v as [|b v IH]; intros H; [reflexivity|].
  simpl in H. apply orb_false_iff in H. destruct H as [-> Hv].
  destruct v as [|b' v]; [reflexivity|].
  change (RegExp.onlyLast (false :: b' :: v))
    with (false :: RegExp.onlyLast (b' :: v)).
  simpl. apply IH, Hv.
Qed.

Lemma boundaries_from_none (prev : bool) (s : jsstring)
  (v : RegExp.posset) :
  existsb (fun b => b) v = false ->
  existsb (fun b => b) (RegExp.boundaries prev s v) = false.
Proof.
  revert prev s. induction v as [|b v IH]; intros prev s H; [reflexivity|].
  simpl in H. apply orb_false_iff in H. destruct H as [-> Hv].
  destruct s as [|c s]; simpl; [reflexivity|]. apply IH, Hv.
Qed.

Lemma iterate_from_none (n : nat) (f : RegExp.posset -> RegExp.posset)
  (v : RegExp.posset) :
  (forall w, existsb (fun b => b) w = false ->
             existsb (fun b => b) (f w) = false) ->
  existsb (fun b => b) v = false ->
  existsb (fun b => b) (RegExp.iterate n f v) = false.
Proof.
  intros Hf. revert v. induction n as [|n IH]; intros v Hv; [exact Hv|].
  simpl. apply IH. apply union_none; [exact Hv|apply Hf, Hv].
Qed.

(** From an empty set of start positions a pattern reaches none. *)
Lemma run_from_none (ci : bool) (r : RegExp.regex) (s : jsstring)
  (v : RegExp.posset) :
  existsb (fun b => b) v = false ->
  existsb (fun b => b) (RegExp.run ci r s v) = false.
Proof.
  revert v.
  induction r as [| |neg ms| | | |a IHa b IHb|a IHa b IHb|a IHa];
    intros v Hv; cbn [RegExp.run].
  - exact Hv.
  - apply advance_from_none, Hv.
  - apply advance_from_none, Hv.
  - destruct v as [|b v]; [reflexivity|]. simpl in Hv.
    apply orb_false_iff in Hv. destruct Hv as [-> _]. simpl.
    induction v as [|b' v IH]; [reflexivity|exact IH].
  - apply onlyLast_from_none, Hv.
  - apply boundaries_from_none, Hv.
  - apply IHb, IHa, Hv.
  - apply union_none; [apply IHa|apply IHb]; exact Hv.
  - apply iterate_from_none; [exact IHa|exact Hv].
Qed.

(** Where a class step ends, a unit of the class was read from a start
    position. *)
Lemma advance_inv (p : cu -> bool) (s : jsstring) (v : RegExp.posset)
  (carry : bool) (j : nat) :
  nth j (RegExp.advance p s v carry) false = true ->
  (j = O /\ carry = true)
  \/ exists i c, j = S i /\ nth_error s i = Some c
                 /\ nth i v false = true /\ p c = true.
Proof.
  revert s carry j. induction v as [|b v IH]; intros s carry j H.
  - destruct j; discriminate H.
  - destruct j as [|j]; [left; split; [reflexivity|exact H]|].
    right. destruct s as [|c s]; [destruct j; discriminate H|].
    cbn [RegExp.advance nth] in H.
    destruct (IH s _ j H) as [[-> Hc]|(i & c' & -> & Hs & Hv & Hp)].
    + apply andb_true_iff in Hc. destruct Hc as [Hb Hc].
      exists O, c. repeat split; assumption.
    + exists (S i), c'. repeat split; assumption.
Qed.

Lemma nth_all_false (v : RegExp.posset) (j : nat) :
  nth j (map (fun _ : bool => false) v) false = false.
Proof.
  revert j. induction v as [|b v IH]; intros [|j]; simpl;
    try reflexivity. apply IH.
Qed.

Lemma onlyFirst_inv (v : RegExp.posset) (j : nat) :
  nth j (RegExp.onlyFirst v) false = true -> j = O.
Proof.
  destruct v as [|b v]; [destruct j; discriminate|].
  destruct j as [|j]; [reflexivity|]. simpl.
  rewrite nth_all_false. discriminate.
Qed.

(** A match of a pattern that begins with literal units reads these units
    at its start position. *)
Lemma literalPrefix_run (ci : bool) (lits : list cu) (r : RegExp.regex)
  (s : jsstring) (v : RegExp.posset) (k : nat) :
  literalPrefix lits r = true ->
  (forall i, nth i v false = true -> i = k) ->
  existsb (fun b => b) (RegExp.run ci r s v) = true ->
  forall i l, nth_error lits i = Some l ->
    exists c, nth_error s (k + i) = Some c
              /\ RegExp.classTest ci false (RegExp.classMembers ci [l]) c
                 = true.
Proof.
  revert r v k. induction lits as [|l0 lits IH]; intros r v k Hr Hv Hm i l Hi.
  - destruct i; discriminate Hi.
  - destruct r as [| | | | | |a r'| |]; try discriminate Hr.
    destruct a as [| |neg ms| | | | | |]; try discriminate Hr.
    destruct neg; [discriminate Hr|].
    destruct ms as [|m [|m' ms]]; try discriminate Hr.
    cbn [literalPrefix] in Hr. apply andb_true_iff in Hr.
    destruct Hr as [Hml Hr]. apply N.eqb_eq in Hml. subst m.
    cbn [RegExp.run] in Hm.
    set (p := RegExp.classTest ci false (RegExp.classMembers ci [l0])) in *.
    set (v' := RegExp.advance p s v false) in *.
    assert (Hv' : forall j, nth j v' false = true ->
                    j = S k /\ exists c, nth_error s k = Some c
                                         /\ p c = true).
    { intros j Hj. destruct (advance_inv _ _ _ _ _ Hj)
        as [[_ Hc]|(i0 & c & -> & Hs & Hvi & Hp)]; [discriminate Hc|].
      apply Hv in Hvi. subst i0. split; [reflexivity|].
      exists c. split; assumption. }
    assert (Hsome : exists j, nth j v' false = true).
    { apply existsb_nth.
      destruct (existsb (fun b => b) v') eqn:E; [reflexivity|].
      rewrite (run_from_none ci r' s v' E) in Hm. discriminate Hm. }
    destruct Hsome as (j0 & Hj0).
    destruct (Hv' j0 Hj0) as (_ & c & Hc & Hp).
    destruct i as [|i].
    + cbn [nth_error] in Hi. injection Hi as <-.
      rewrite Nat.add_0_r. exists c. split; assumption.
    + cbn [nth_error] in Hi.
      destruct (IH r' v' (S k) Hr (fun j Hj => proj1 (Hv' j Hj)) Hm i l Hi)
        as (c' & Hc' & Hp').
      exists c'. split; [|exact Hp'].
      rewrite <- Nat.add_succ_comm. exact Hc'.
Qed.

Lemma anchored_test (ci : bool) (lits : list cu) (r : RegExp.regex)
  (s : jsstring) :
  anchored lits r = true ->
  RegExp.matches ci r s = true ->
  forall i l, nth_error lits i = Some l ->
    exists c, nth_error s i = Some c
              /\ RegExp.classTest ci false (RegExp.classMembers ci [l]) c
                 = true.
Proof.
  intros Hr Hm.
  destruct r as [| | | | | |a r'| |]; try discriminate Hr.
  destruct a; try discriminate Hr. cbn [anchored] in Hr.
  unfold RegExp.matches in Hm. cbn [RegExp.run] in Hm.
  exact (@literalPrefix_run ci lits r' s _ O Hr
           (fun i Hi => @onlyFirst_inv _ i Hi) Hm).
Qed.

(* --------------------------------------------------------------------- *)
(** *** Safe URLs, the observer's filter, and the structural stage *)

Lemma toLowerCase_no_capital (s : jsstring) (c : cu) :
  In c (toLowerCase s) -> in_range 65%N 90%N c = false.
Proof.
  unfold toLowerCase. rewrite in_flat_map. intros (x & _ & Hc).
  unfold toLowerUnit in Hc.
  repeat match type of Hc with
         | In _ (if ?b then _ else _) => destruct b eqn:?
         end;
    repeat match goal with
           | H : (_ && _)%bool = true |- _ =>
             apply andb_true_iff in H; destruct H
           | H : in_range _ _ _ = true |- _ =>
             unfold in_range in H; apply andb_true_iff in H; destruct H
           | H : cu_eqb _ _ = true |- _ => apply N.eqb_eq in H
           | H : N.leb _ _ = true |- _ => apply N.leb_le in H
           end;
    simpl in Hc;
    repeat match goal with
           | H : _ \/ _ |- _ => destruct H
           | H : False |- _ => destruct H
           end;
    subst; try assumption;
    unfold in_range; apply andb_false_iff;
    try (right; apply N.leb_gt; lia); try (left; apply N.leb_gt; lia).
Qed.

Lemma canonicalize_basic (c : cu) :
  (c < 128)%N ->
  canonicalize c = if in_range 97%N 122%N c then (c - 32)%N else c.
Proof.
  intros Hc. unfold canonicalize, toUpperUnit, isAscii.
  destruct (N.ltb_spec c 128) as [_|?]; [|lia].
  destruct (N.leb_spec 128 c) as [?|_]; [lia|]. reflexivity.
Qed.

Lemma canonicalize_beyond (c : cu) :
  (128 <= c)%N -> (128 <= canonicalize c)%N.
Proof.
  intros Hc. unfold canonicalize.
  destruct (N.leb_spec 128 c) as [_|?]; [|lia]. cbn [andb].
  destruct (N.ltb_spec (toUpperUnit c) 128); [exact Hc|assumption].
Qed.

(** Under the [i] flag a unit that is not a capital matches a literal that
    is an ASCII unit and not a capital only when it is that literal. *)
Lemma ci_literal (l c : cu) :
  isAscii l = true -> in_range 65%N 90%N l = false ->
  in_range 65%N 90%N c = false ->
  RegExp.classTest true false (RegExp.classMembers true [l]) c = true ->
  c = l.
Proof.
  unfold RegExp.classTest, RegExp.classMembers. cbn [map existsb xorb].
  rewrite orb_false_r. unfold cu_eqb, isAscii.
  intros Hl Hlu Hcu E. apply N.eqb_eq in E. apply N.ltb_lt in Hl.
  rewrite (canonicalize_basic Hl) in E.
  destruct (N.lt_ge_cases c 128) as [Hc|Hc].
  - rewrite (canonicalize_basic Hc) in E.
    unfold in_range in *.
    apply andb_false_iff in Hlu, Hcu.
    destruct (N.leb_spec 97 c); destruct (N.leb_spec c 122);
      destruct (N.leb_spec 97 l); destruct (N.leb_spec l 122);
      cbn [andb] in E;
      destruct Hlu as [Hlu|Hlu]; apply N.leb_gt in Hlu;
      destruct Hcu as [Hcu|Hcu]; apply N.leb_gt in Hcu; lia.
  - pose proof (canonicalize_beyond Hc) as Hb. rewrite E in Hb.
    unfold in_range in Hb.
    destruct (N.leb 97 l && N.leb l 122)%bool; lia.
Qed.

Lemma startsWith_nth (s p : jsstring) :
  (forall i l, nth_error p i = Some l -> nth_error s i = Some l) ->
  startsWith s p = true.
Proof.
  revert s. induction p as [|a p IH]; intros s H.
  - destruct s; reflexivity.
  - destruct s as [|b s].
    + specialize (H O a eq_refl). discriminate H.
    + cbn [startsWith]. pose proof (H O a eq_refl) as H0.
      injection H0 as ->. unfold cu_eqb at 1. rewrite N.eqb_refl.
      apply IH. intros i l Hi. exact (H (S i) l Hi).
Qed.

(** Each safe indicator of the URL category is a case-insensitive pattern
    that begins with [^https://]. *)
Lemma safeIndicators_url_anchored (re : RegExp.t) :
  In re (safeIndicators Url) ->
  RegExp.ignoreCase re = true
  /\ exists r, RegExp.compile re = Some r
               /\ anchored (utf16 "https://") r = true.
Proof.
  assert (H : forallb
                (fun re =>
                   RegExp.ignoreCase re
                   && match RegExp.compile re with
                      | Some r => anchored (utf16 "https://") r
                      | None => false
                      end)%bool (safeIndicators Url) = true)
    by (vm_compute; reflexivity).
  rewrite forallb_forall in H. intros Hre. specialize (H re Hre).
  apply andb_true_iff in H. destruct H as [Hi Hc].
  split; [exact Hi|].
  destruct (RegExp.compile re) as [r|]; [|discriminate Hc].
  exists r. split; [reflexivity|exact Hc].
Qed.

Lemma safe_url_prefix (content : jsstring) :
  isSafeContent Url content = true ->
  startsWith (toLowerCase content) (utf16 "https://") = true.
Proof.
  unfold isSafeContent. rewrite existsb_exists. intros (re & Hre & Ht).
  destruct (safeIndicators_url_anchored Hre) as (Hi & r & Hc & Ha).
  unfold RegExp.test in Ht. rewrite Hc, Hi in Ht.
  apply startsWith_nth. intros i l Hl.
  destruct (@anchored_test true _ _ _ Ha Ht i l Hl) as (c & Hc' & Hp).
  rewrite Hc'. f_equal.
  assert (Hlit : forallb (fun l => isAscii l
                                   && negb (in_range 65%N 90%N l))%bool
                   (utf16 "https://") = true) by (vm_compute; reflexivity).
  rewrite forallb_forall in Hlit.
  specialize (Hlit l (nth_error_In _ _ Hl)).
  apply andb_true_iff in Hlit. destruct Hlit as [Hl1 Hl2].
  apply negb_true_iff in Hl2.
  apply (@ci_literal l c Hl1 Hl2); [|exact Hp].
  apply (@toLowerCase_no_capital content c). eapply nth_error_In, Hc'.
Qed.

(** A pattern that begins with a one-unit class matches only a subject that
    holds a unit of the class. *)
Lemma first_class_test (ci : bool) (ms : list cu) (r' : RegExp.regex)
  (s : jsstring) :
  RegExp.matches ci (RegExp.Cat (RegExp.Cls false ms) r') s = true ->
  exists c, In c s
            /\ RegExp.classTest ci false (RegExp.classMembers ci ms) c = true.
Proof.
  unfold RegExp.matches. cbn [RegExp.run]. intros Hm.
  match type of Hm with
  | existsb _ (RegExp.run _ _ _ ?w) = true => set (v' := w) in *
  end.
  assert (Hsome : exists j, nth j v' false = true).
  { apply existsb_nth.
    destruct (existsb (fun b => b) v') eqn:E; [reflexivity|].
    rewrite (@run_from_none ci r' s v' E) in Hm. discriminate Hm. }
  destruct Hsome as (j & Hj).
  destruct (@advance_inv _ _ _ _ _ Hj) as [[_ Hc]|(i & c & _ & Hs & _ & Hp)];
    [discriminate Hc|].
  exists c. split; [eapply nth_error_In, Hs|exact Hp].
Qed.

Lemma emailLike_needs_at (s : jsstring) :
  RegExp.test emailLike s = true -> In 64%N s.
Proof.
  unfold RegExp.test.
  assert (Hc : exists r', RegExp.compile emailLike
                          = Some (RegExp.Cat (RegExp.Cls false [64%N]) r'))
    by (vm_compute; eexists; reflexivity).
  destruct Hc as (r' & ->). change (RegExp.ignoreCase emailLike) with false.
  intros Hm. destruct (@first_class_test _ _ _ _ Hm) as (c & Hin & Hp).
  unfold RegExp.classTest, RegExp.classMembers in Hp.
  cbn [existsb xorb] in Hp. rewrite orb_false_r in Hp.
  apply N.eqb_eq in Hp. subst c. exact Hin.
Qed.

Lemma existsb_eqb_In (r : string) (l : list string) :
  existsb (String.eqb r) l = true <-> In r l.
Proof.
  rewrite existsb_exists. split.
  - intros (x & Hx & E). apply String.eqb_eq in E. subst x. exact Hx.
  - intros H. exists r. split; [exact H|apply String.eqb_refl].
Qed.

Section Structure.

Context {platform : URLParser}.

Lemma urlChecks_exclusive (content : jsstring) (a : Acc) :
  exists hs,
    Extends a hs (urlChecks content a)
    /\ exclusive (map snd hs) = true
    /\ (newURL (urlInput content) <> None ->
        existsb (String.eqb "Malformed URL structure") (map snd hs) = false).
Proof.
  unfold urlChecks. destruct (newURL (urlInput content)) as [url|].
  - unfold urlStructure. split_conditions;
      (eexists; split; [|split];
       [repeat apply Extends_hit; apply Extends_none
       |vm_compute; reflexivity
       |intros _; vm_compute; reflexivity]).
  - eexists; split; [|split];
      [repeat apply Extends_hit; apply Extends_none
      |vm_compute; reflexivity
      |intros H; congruence].
Qed.

End Structure.

Section Stages.

Context {platform : URLParser}.

Lemma score_url (content : jsstring) :
  score Url content = urlChecks content (ruleStage Url content).
Proof. reflexivity. Qed.

Lemma score_sms (content : jsstring) :
  score Sms content = smsChecks content (ruleStage Sms content).
Proof. reflexivity. Qed.

(** A reason that no pattern of the category carries is among the collected
    reasons only when the checks of the content type pushed it. *)
Lemma outside_rules (t : ContentType) (content : jsstring) (r : string) :
  existsb (String.eqb r) (map reason (fraudPatterns t)) = false ->
  In r (matchedReasons (score t content)) ->
  In r (extraReasons t content).
Proof.
  intros Hn Hin. rewrite score_reasons in Hin.
  apply in_app_or in Hin. destruct Hin as [Hin|Hin]; [|exact Hin].
  exfalso.
  assert (Hr : In r (map reason (fraudPatterns t))).
  { eapply subseq_In; [|exact Hin]. apply subseq_map, subseq_filter. }
  apply existsb_eqb_In in Hr. congruence.
Qed.

(** X6: a URL counts as safe content only when its lower-cased text starts
    with [https://]; for any other URL the multiplier is 1 and the total
    weight is the plain sum of the rule weights and the structural
    weights. *)
Theorem X6_safe_url_needs_https (content : jsstring) :
  startsWith (toLowerCase content) (utf16 "https://") = false ->
  isSafeContent Url content = false
  /\ safeContentMultiplier Url content == 1
  /\ totalWeight (score Url content)
     == ruleWeight Url content + extraWeight Url content.
Proof.
  intros Hp.
  assert (Hs : isSafeContent Url content = false).
  { destruct (isSafeContent Url content) eqn:E; [|reflexivity].
    apply safe_url_prefix in E. congruence. }
  assert (Hm : safeContentMultiplier Url content == 1).
  { unfold safeContentMultiplier. rewrite Hs. reflexivity. }
  split; [exact Hs|split; [exact Hm|]].
  destruct (score_Extends Url content) as (hs & _ & He & Hw & _).
  rewrite (Extends_weight He), ruleStage_weight, Hm, Hw. ring.
Qed.

(** X8: among the reasons of a URL evaluation the two top-level-domain
    reasons exclude each other, so do the two subdomain reasons, and the
    malformed-URL reason is there exactly when the parser refuses the
    input; it is then the only reason of the structural stage, which adds
    0.8. *)
Theorem X8_url_structure (content : jsstring) :
  let rs := matchedReasons (score Url content) in
  ~ (In "High-risk top-level domain" rs
     /\ In "Suspicious top-level domain" rs)
  /\ ~ (In "Excessive subdomain nesting" rs
        /\ In "Multiple subdomains detected" rs)
  /\ (In "Malformed URL structure" rs <-> newURL (urlInput content) = None)
  /\ (newURL (urlInput content) = None ->
      extraReasons Url content = ["Malformed URL structure"]
      /\ extraWeight Url content == 0.8).
Proof.
  cbv zeta.
  destruct (urlChecks_exclusive content (ruleStage Url content))
    as (hs & He & Hx & Hm).
  rewrite <- score_url in He.
  assert (Hr : extraReasons Url content = map snd hs).
  { unfold extraReasons. rewrite (Extends_reasons He), skipn_app, skipn_all.
    rewrite Nat.sub_diag. reflexivity. }
  assert (Hin : forall r,
             existsb (String.eqb r) (map reason (fraudPatterns Url)) = false ->
             In r (matchedReasons (score Url content)) ->
             existsb (String.eqb r) (map snd hs) = true).
  { intros r Hn Hi. apply existsb_eqb_In. rewrite <- Hr.
    exact (outside_rules Url content r Hn Hi). }
  unfold exclusive in Hx.
  apply andb_true_iff in Hx. destruct Hx as [Hx H3].
  apply andb_true_iff in Hx. destruct Hx as [H1 H2].
  split; [|split; [|split]].
  - intros [Ha Hb].
    apply Hin in Ha; [|vm_compute; reflexivity].
    apply Hin in Hb; [|vm_compute; reflexivity].
    rewrite Ha, Hb in H1. discriminate H1.
  - intros [Ha Hb].
    apply Hin in Ha; [|vm_compute; reflexivity].
    apply Hin in Hb; [|vm_compute; reflexivity].
    rewrite Ha, Hb in H2. discriminate H2.
  - split.
    + intros Ha. apply Hin in Ha; [|vm_compute; reflexivity].
      destruct (newURL (urlInput content)) eqn:E; [|reflexivity].
      rewrite Hm in Ha; [discriminate Ha|congruence].
    + intros E. rewrite score_url. unfold urlChecks. rewrite E.
      cbn [hit matchedReasons]. apply in_or_app. right. left. reflexivity.
  - intros E. split.
    + unfold extraReasons. rewrite score_url. unfold urlChecks. rewrite E.
      cbn [hit matchedReasons]. rewrite skipn_app, skipn_all, Nat.sub_diag.
      reflexivity.
    + unfold extraWeight, typeChecks. cbn [ContentType_eqb].
      unfold urlChecks. rewrite E. cbn [hit totalWeight]. ring.
Qed.

(** X9: the short-message reason is among the reasons of an SMS evaluation
    exactly when the message has fewer than 50 code units and at least one
    pattern of the SMS table matched it. *)
Theorem X9_sms_short_message (content : jsstring) :
  In "Short message with suspicious content"
    (matchedReasons (score Sms content))
  <-> ((JS.length content < 50)%nat /\ matched Sms content <> []).
Proof.
  assert (Hout : forall l, subseq l (map reason (fraudPatterns Sms)) ->
                   ~ In "Short message with suspicious content" l).
  { intros l Hl Hi. apply (@subseq_In _ _ _ _ Hl) in Hi.
    apply existsb_eqb_In in Hi. vm_compute in Hi. discriminate Hi. }
  assert (Hrule : ~ In "Short message with suspicious content"
                      (matchedReasons (ruleStage Sms content))).
  { rewrite ruleStage_reasons. apply Hout, subseq_map, subseq_filter. }
  assert (Hlen : List.length (matchedReasons (ruleStage Sms content))
                 = List.length (matched Sms content)).
  { rewrite ruleStage_reasons. apply length_map. }
  rewrite score_sms. unfold smsChecks. rewrite Hlen.
  set (m := matched Sms content) in *.
  set (a := ruleStage Sms content) in *.
  set (number := (RegExp.test senderNumber content
                  || RegExp.test replyNumber content)%bool).
  assert (Hm : (0 < List.length m)%nat <-> m <> []).
  { destruct m; cbn [List.length]; split; intros H;
      [lia|congruence|discriminate|lia]. }
  clearbody m a number.
  destruct (Nat.ltb_spec (JS.length content) 50) as [H50|H50];
    destruct (Nat.ltb_spec 0 (List.length m)) as [Hn|Hn];
    cbn [andb]; destruct number;
    cbn [hit matchedReasons]; rewrite ?in_app_iff; cbn [In];
    (split; [intros H|intros [Hl Hne]]);
    try (split; [exact H50|apply Hm, Hn]);
    try tauto;
    try (exfalso; apply Hm in Hne; lia);
    try (exfalso; lia);
    try (exfalso; intuition congruence).
Qed.

End Stages.

(* --------------------------------------------------------------------- *)
(** *** The handlers, the counters and the reports *)

Section Machine.

Context {platform : URLParser}.







(** The counters after a step, read off the alerts of clicks and manual
    tests. *)
Lemma intercepted_cons (b : bool) (e : Event) (es : list (bool * Event)) :
  intercepted ((b, e) :: es) = intercepted [(b, e)] ++ intercepted es.
Proof. unfold intercepted. cbn [flat_map]. rewrite app_nil_r. reflexivity. Qed.

Lemma intercepted_app (es es' : list (bool * Event)) :
  intercepted (es ++ es') = intercepted es ++ intercepted es'.
Proof. unfold intercepted. apply flat_map_app. Qed.

Lemma step_counters (b : bool) (e : Event) (s : State) :
  clears (b, e) = false ->
  interceptedAttempts (step b e s)
  = (List.length (intercepted [(b, e)]) + interceptedAttempts s)%nat
  /\ blockedCount (step b e s)
     = (List.length (filter blocked (intercepted [(b, e)]))
        + blockedCount s)%nat.
Proof.
  unfold intercepted. cbn [flat_map fst snd].
  destruct e as [h now|tc now|t c now| | |]; cbn [step clears snd];
    try discriminate; intros _.
  1, 3:
    match goal with
    | |- context [match ?x with Some _ => _ | None => _ end] =>
      destruct x as [r|]; [|split; reflexivity]
    end;
    cbn [app filter intercept interceptedAttempts blockedCount];
    destruct (blocked r); split; reflexivity.
  - match goal with
    | |- context [match ?x with Some _ => _ | None => _ end] =>
      destruct x as [r|]; split; reflexivity
    end.
  - split; reflexivity.
  - split; reflexivity.
Qed.

Lemma run_cons (be : bool * Event) (es : list (bool * Event)) (s : State) :
  run (be :: es) s = run es (step (fst be) (snd be) s).
Proof. reflexivity. Qed.

Lemma run_counters (es : list (bool * Event)) (s : State) :
  interceptedAttempts (run es s)
  = (if existsb clears es
     then List.length (intercepted (sinceClear es))
     else List.length (intercepted es) + interceptedAttempts s)%nat
  /\ blockedCount (run es s)
     = (if existsb clears es
        then List.length (filter blocked (intercepted (sinceClear es)))
        else List.length (filter blocked (intercepted es))
             + blockedCount s)%nat.
Proof.
  revert s. induction es as [|[b e] es IH]; intros s.
  - cbn. split; reflexivity.
  - rewrite run_cons. cbn [fst snd existsb sinceClear].
    destruct (IH (step b e s)) as [IH1 IH2].
    destruct (existsb clears es) eqn:Ec.
    + rewrite orb_true_r. split; assumption.
    + rewrite orb_false_r. destruct (clears (b, e)) eqn:Eb.
      * rewrite IH1, IH2. destruct e; try discriminate Eb.
        cbn [step interceptedAttempts blockedCount].
        rewrite !Nat.add_0_r. split; reflexivity.
      * destruct (step_counters b e s Eb) as [S1 S2].
        rewrite IH1, IH2, S1, S2, (intercepted_cons b e es).
        rewrite filter_app, !length_app. split; lia.
Qed.

Lemma sinceClear_suffix (es : list (bool * Event)) :
  exists pre, es = pre ++ sinceClear es.
Proof.
  induction es as [|be es (pre & IH)]; [exists []; reflexivity|].
  cbn [sinceClear]. destruct (existsb clears es).
  - exists (be :: pre). cbn [app]. f_equal. exact IH.
  - destruct (clears be); [exists [be]|exists []]; reflexivity.
Qed.

Lemma fraudResults_snoc (es : list (bool * Event)) (be : bool * Event)
  (prev : list FraudResult) :
  fraudResults (es ++ [be]) prev
  = match reported (fst be) (snd be) with
    | Some result => handleFraudComplete result (fraudResults es prev)
    | None => fraudResults es prev
    end.
Proof. unfold fraudResults. rewrite fold_left_app. reflexivity. Qed.

Lemma intercepted_one (b : bool) (e : Event) :
  intercepted [(b, e)]
  = match reported b e with Some _ =>
      match evaluation b e with Some alert => [alert] | None => [] end
    | None => []
    end.
Proof.
  unfold intercepted, reported. cbn [flat_map fst snd].
  rewrite app_nil_r.
  destruct e as [h now|tc now|t c now| | |]; try reflexivity.
  - destruct (evaluation b (Click h now)); reflexivity.
  - destruct (evaluation b (ManualTest t c now)); reflexivity.
Qed.

Lemma fraudResults_intercepted (es : list (bool * Event))
  (prev : list FraudResult) :
  fraudResults es prev = map toFraudResult (rev (intercepted es)) ++ prev.
Proof.
  induction es as [|[b e] es IH] using rev_ind; [reflexivity|].
  rewrite fraudResults_snoc, intercepted_app, rev_app_distr, map_app, IH.
  rewrite intercepted_one. cbn [fst snd].
  unfold reported, handleFraudComplete.
  destruct e as [h now|tc now|t c now| | |]; try reflexivity.
  - destruct (evaluation b (Click h now)); reflexivity.
  - destruct (evaluation b (ManualTest t c now)); reflexivity.
Qed.

(** X7: a node the observer sees never changes the two counters and is
    never reported; it leaves the whole state alone when the engine is off,
    when its text has at most 50 code units or when the text holds no [@];
    when it is evaluated it is evaluated as an e-mail, and the popup changes
    only to a high-threat e-mail result. *)
Theorem X7_observer_filter (isEnabled : bool) (textContent : jsstring)
  (now : Stamp) (s : State) :
  let e := NodeAdded textContent now in
  blockedCount (step isEnabled e s) = blockedCount s
  /\ interceptedAttempts (step isEnabled e s) = interceptedAttempts s
  /\ reported isEnabled e = None
  /\ (isEnabled = false \/ (JS.length textContent <= 50)%nat
      \/ ~ In 64%N textContent ->
      step isEnabled e s = s)
  /\ (forall a, evaluation isEnabled e = Some a ->
        type a = Email
        /\ alerts (step isEnabled e s) = pushAlert a (alerts s))
  /\ (showWarningPopup (step isEnabled e s) <> showWarningPopup s ->
      exists a, showWarningPopup (step isEnabled e s) = Some a
                /\ threat a = High /\ type a = Email).
Proof.
  cbv zeta. cbn [step reported].
  assert (Hty : forall a, evaluation isEnabled (NodeAdded textContent now)
                          = Some a -> type a = Email).
  { cbn [evaluation]. intros a.
    destruct (isEnabled && Nat.ltb 50 (JS.length textContent)
              && RegExp.test emailLike textContent)%bool; [|discriminate].
    intros H. apply analyzeContent_Some in H. tauto. }
  assert (Hgate : isEnabled = false \/ (JS.length textContent <= 50)%nat
                  \/ ~ In 64%N textContent ->
                  evaluation isEnabled (NodeAdded textContent now) = None).
  { cbn [evaluation]. intros H.
    destruct isEnabled; [|reflexivity]. cbn [andb].
    destruct (Nat.ltb_spec 50 (JS.length textContent)) as [Hl|Hl];
      [|reflexivity]. cbn [andb].
    destruct (RegExp.test emailLike textContent) eqn:Et; [|reflexivity].
    apply emailLike_needs_at in Et.
    destruct H as [H|[H|H]]; [discriminate H|lia|contradiction]. }
  destruct (evaluation isEnabled (NodeAdded textContent now)) as [r|] eqn:E.
  - cbn [observe blockedCount interceptedAttempts alerts showWarningPopup].
    split; [reflexivity|split; [reflexivity|split; [reflexivity|]]].
    split; [intros H; apply Hgate in H; discriminate H|].
    split.
    + intros a Ha. injection Ha as <-. split; [apply Hty|]; reflexivity.
    + destruct (Threat_eqb (threat r) High) eqn:Eh; [|congruence].
      intros _. exists r. split; [reflexivity|].
      split; [|apply Hty; reflexivity].
      destruct (threat r); try discriminate Eh. reflexivity.
  - split; [reflexivity|split; [reflexivity|split; [reflexivity|]]].
    split; [reflexivity|]. split; [discriminate|congruence].
Qed.

(** X10: after any run the attempt counter is the number of alerts raised
    by the clicks and manual tests since the last clearing of the history,
    the blocked counter is the number of those that are blocked, and so the
    blocked counter never exceeds the attempt counter. *)
Theorem X10_counters (es : list (bool * Event)) :
  interceptedAttempts (run es initial)
  = List.length (intercepted (sinceClear es))
  /\ blockedCount (run es initial)
     = List.length (filter blocked (intercepted (sinceClear es)))
  /\ (blockedCount (run es initial)
      <= interceptedAttempts (run es initial))%nat.
Proof.
  destruct (run_counters es initial) as [H1 H2].
  assert (E1 : interceptedAttempts (run es initial)
               = List.length (intercepted (sinceClear es))).
  { rewrite H1. destruct (existsb clears es) eqn:Ec; [reflexivity|].
    rewrite (sinceClear_none es Ec). cbn [initial interceptedAttempts]. lia. }
  assert (E2 : blockedCount (run es initial)
               = List.length (filter blocked (intercepted (sinceClear es)))).
  { rewrite H2. destruct (existsb clears es) eqn:Ec; [reflexivity|].
    rewrite (sinceClear_none es Ec). cbn [initial blockedCount]. lia. }
  split; [exact E1|split; [exact E2|]].
  rewrite E1, E2. apply filter_length_le.
Qed.


(** X12: the parent receives one report for each alert of a click or a
    manual test, newest first and in front of what it already had; nothing
    is dropped and clearing the history does not touch it, so the attempt
    counter never exceeds the number of reports and equals it as long as
    the history was never cleared. *)
Theorem X12_reports (es : list (bool * Event)) (prev : list FraudResult) :
  fraudResults es prev = map toFraudResult (rev (intercepted es)) ++ prev
  /\ List.length (fraudResults es prev)
     = (List.length (intercepted es) + List.length prev)%nat
  /\ (interceptedAttempts (run es initial)
      <= List.length (fraudResults es []))%nat
  /\ (existsb clears es = false ->
      interceptedAttempts (run es initial)
      = List.length (fraudResults es [])).
Proof.
  assert (Hlen : forall p, List.length (fraudResults es p)
                   = (List.length (intercepted es) + List.length p)%nat).
  { intros p. rewrite fraudResults_intercepted.
    rewrite length_app, length_map, length_rev. reflexivity. }
  destruct (run_counters es initial) as [H1 _].
  split; [apply fraudResults_intercepted|split; [apply Hlen|split]].
  - rewrite Hlen, H1. cbn [List.length initial interceptedAttempts].
    destruct (existsb clears es); [|lia].
    destruct (sinceClear_suffix es) as (pre & Hpre).
    rewrite Hpre at 2. rewrite intercepted_app, length_app. lia.
  - intros Ec. rewrite Hlen, H1, Ec.
    cbn [List.length initial interceptedAttempts]. reflexivity.
Qed.




End Machine.

(* --------------------------------------------------------------------- *)
(** *** The sample generator *)

Lemma floorIndex_lt (pick : Q) (n : nat) :
  0 <= pick -> pick < 1 -> (0 < n)%nat ->
  (floorIndex (pick * inject_Z (Z.of_nat n)) < n)%nat.
Proof.
  intros H0 H1 Hn. unfold floorIndex.
  set (x := pick * inject_Z (Z.of_nat n)).
  assert (Hpos : 0 < inject_Z (Z.of_nat n)).
  { change 0 with (inject_Z 0). rewrite <- Zlt_Qlt. lia. }
  assert (Hx0 : 0 <= x) by (apply Qmult_le_0_compat; [exact H0|lra]).
  assert (Hx1 : x < inject_Z (Z.of_nat n)).
  { unfold x. rewrite <- (Qmult_1_l (inject_Z (Z.of_nat n))) at 2.
    apply Qmult_lt_compat_r; assumption. }
  assert (Hf0 : (0 <= Qfloor x)%Z).
  { change 0%Z with (Qfloor (inject_Z 0)). apply Qfloor_resp_le, Hx0. }
  assert (Hf1 : (Qfloor x < Z.of_nat n)%Z).
  { rewrite Zlt_Qlt. eapply Qle_lt_trans; [apply Qfloor_le|exact Hx1]. }
  lia.
Qed.

Lemma pick_element {A : Type} (l : list A) (pick : Q) :
  l <> [] -> 0 <= pick -> pick < 1 ->
  exists x,
    nth_error l (floorIndex (pick * inject_Z (Z.of_nat (List.length l))))
    = Some x.
Proof.
  intros Hl H0 H1.
  assert (Hn : (0 < List.length l)%nat)
    by (destruct l; [congruence|cbn [List.length]; lia]).
  pose proof (floorIndex_lt H0 H1 Hn) as Hi.
  apply nth_error_Some in Hi.
  destruct (nth_error l _) as [x|]; [exists x; reflexivity|congruence].
Qed.

Lemma samples_nonempty (fraudulent : bool) :
  sampleEmails fraudulent <> [] /\ sampleSms fraudulent <> []
  /\ sampleUrls fraudulent <> [].
Proof. destruct fraudulent; repeat split; discriminate. Qed.

(** What the generator returns is one of the rendered samples of the kind
    asked for. *)
Lemma generateRandomContent_In (t : ContentType) (isFraudulent : option bool)
  (coin pick : Q) (c : jsstring) :
  generateRandomContent t isFraudulent coin pick = Some c ->
  In c (renderedSamples t
          match isFraudulent with
          | Some b => b
          | None => negb (Qle_bool coin 0.5)
          end).
Proof.
  unfold generateRandomContent, renderedSamples.
  set (fraudulent := match isFraudulent with
                     | Some b => b
                     | None => negb (Qle_bool coin 0.5)
                     end).
  destruct t.
  - set (i := floorIndex _).
    destruct (nth_error (sampleUrls fraudulent) i) as [x|] eqn:E;
      [|discriminate].
    cbn [option_map]. intros H. injection H as <-.
    apply in_map, (nth_error_In _ _ E).
  - set (i := floorIndex _).
    destruct (nth_error (sampleEmails fraudulent) i) as [x|] eqn:E;
      [|discriminate].
    intros H. injection H as <-.
    apply (in_map (fun emailObj =>
                     utf16 "Subject: " ++ utf16 (subject emailObj)
                     ++ [10; 10]%N ++ utf16 (content_ emailObj))),
      (nth_error_In _ _ E).
  - set (i := floorIndex _).
    destruct (nth_error (sampleSms fraudulent) i) as [x|] eqn:E;
      [|discriminate].
    cbn [option_map]. intros H. injection H as <-.
    apply in_map, (nth_error_In _ _ E).
Qed.

Lemma selectFrom_weight (f : Pattern -> bool) (positions : list nat)
  (ps : list Pattern) (k : nat) :
  (forall p, In p ps -> 0 <= weight p) ->
  forallb f (selectFrom k positions ps) = true ->
  sumQ (map weight (selectFrom k positions ps))
  <= sumQ (map weight (filter f ps)).
Proof.
  revert k. induction ps as [|x ps IH]; intros k Hw Hf.
  - apply Qle_refl.
  - assert (Hx : 0 <= weight x) by (apply Hw; left; reflexivity).
    assert (Hw' : forall p, In p ps -> 0 <= weight p)
      by (intros p Hp; apply Hw; right; exact Hp).
    cbn [selectFrom] in *.
    destruct (existsb (Nat.eqb k) positions).
    + cbn [forallb] in Hf. apply andb_true_iff in Hf.
      destruct Hf as [Hfx Hf]. cbn [filter]. rewrite Hfx. cbn [map].
      change (weight x + sumQ (map weight (selectFrom (S k) positions ps))
              <= weight x + sumQ (map weight (filter f ps))).
      apply Qplus_le_compat; [apply Qle_refl|exact (IH (S k) Hw' Hf)].
    + pose proof (IH (S k) Hw' Hf) as H. cbn [filter].
      destruct (f x); [|exact H]. cbn [map].
      change (sumQ (map weight (selectFrom (S k) positions ps))
              <= weight x + sumQ (map weight (filter f ps))).
      set (a := sumQ (map weight (selectFrom (S k) positions ps))) in *.
      set (b := sumQ (map weight (filter f ps))) in *.
      lra.
Qed.

(** What a piece of evidence shows about the pattern stage. *)
Lemma evidence_sound (t : ContentType) (c : jsstring)
  (positions : list nat) :
  evidence t c positions = true ->
  1.2 <= totalWeight (ruleStage t c)
  /\ matchedReasons (ruleStage t c) <> [].
Proof.
  unfold evidence. cbv zeta.
  set (ps := selectFrom 0 positions (fraudPatterns t)).
  intros H. apply andb_true_iff in H. destruct H as [Hall Hsum].
  pose proof (@selectFrom_weight (fun p => RegExp.test (pattern p) c)
                positions (fraudPatterns t) 0
                (@fraudPatterns_weights t) Hall) as Hle.
  fold ps in Hle. fold (matched t c) in Hle. fold (ruleWeight t c) in Hle.
  assert (Hw : 1.2 <= ruleWeight t c * safeContentMultiplier t c
               /\ 0 < ruleWeight t c).
  { unfold safeContentMultiplier.
    destruct (Qle_bool 2 (sumQ (map weight ps))) eqn:E2.
    - apply Qle_bool_iff in E2.
      destruct (isSafeContent t c); split; lra.
    - apply andb_true_iff in Hsum. destruct Hsum as [E1 Es].
      apply Qle_bool_iff in E1. apply negb_true_iff in Es. rewrite Es.
      split; lra. }
  destruct Hw as [Hw Hpos]. split.
  - rewrite ruleStage_weight. exact Hw.
  - rewrite ruleStage_reasons. intros E. apply map_eq_nil in E.
    unfold ruleWeight in Hpos. rewrite E in Hpos. cbn in Hpos. lra.
Qed.

Lemma In_combine {A B : Type} (l : list A) (m : list B) (x : A) :
  List.length l = List.length m -> In x l -> exists y, In (x, y) (combine l m).
Proof.
  revert m. induction l as [|a l IH]; intros [|b m] Hlen Hx;
    try discriminate Hlen; [destruct Hx|].
  cbn [combine]. destruct Hx as [->|Hx].
  - exists b. left. reflexivity.
  - destruct (IH m (f_equal pred Hlen) Hx) as [y Hy].
    exists y. right. exact Hy.
Qed.

(** Every fraudulent sample is non-blank and matches patterns of its table
    whose scaled weights reach 1.2. *)
Lemma fraudulent_samples_rules (t : ContentType) (c : jsstring) :
  In c (renderedSamples t true) ->
  truthy (trim c) = true
  /\ 1.2 <= totalWeight (ruleStage t c)
  /\ matchedReasons (ruleStage t c) <> [].
Proof.
  assert (Hlen : List.length (renderedSamples t true)
                 = List.length (sampleEvidence t))
    by (destruct t; reflexivity).
  assert (H : forallb
                (fun ce => truthy (trim (fst ce))
                           && evidence t (fst ce) (snd ce))%bool
                (combine (renderedSamples t true) (sampleEvidence t))
              = true)
    by (destruct t; vm_compute; reflexivity).
  rewrite forallb_forall in H. intros Hc.
  destruct (@In_combine _ _ _ _ c Hlen Hc) as [e He].
  specialize (H (c, e) He). cbn [fst snd] in H.
  apply andb_true_iff in H. destruct H as [H1 H2].
  split; [exact H1|exact (@evidence_sound _ _ _ H2)].
Qed.

Lemma jsstring_eqb_refl (s : jsstring) : jsstring_eqb s s = true.
Proof.
  unfold jsstring_eqb. rewrite Nat.eqb_refl. cbn [andb].
  induction s as [|a s IH]; [reflexivity|].
  cbn [startsWith]. unfold cu_eqb at 1. rewrite N.eqb_refl. exact IH.
Qed.

(** No sample is both in the fraudulent and in the legitimate array of its
    content type. *)
Lemma samples_disjoint (t : ContentType) (c : jsstring) :
  In c (renderedSamples t true) -> ~ In c (renderedSamples t false).
Proof.
  assert (H : forallb
                (fun c => negb (existsb (jsstring_eqb c)
                                  (renderedSamples t false)))
                (renderedSamples t true) = true)
    by (destruct t; vm_compute; reflexivity).
  rewrite forallb_forall in H. intros Hc Hf. specialize (H c Hc).
  apply negb_true_iff in H.
  assert (E : existsb (jsstring_eqb c) (renderedSamples t false) = true).
  { apply existsb_exists. exists c. split; [exact Hf|].
    apply jsstring_eqb_refl. }
  congruence.
Qed.

Section Generator.

Context {platform : URLParser}.

Lemma rule_weight_flagged (now : Stamp) (t : ContentType) (c : jsstring) :
  truthy (trim c) = true ->
  1.2 <= totalWeight (ruleStage t c) ->
  matchedReasons (ruleStage t c) <> [] ->
  exists a, analyzeContent true now t c = Some a /\ threat a <> Low.
Proof.
  intros Hc Hw Hr.
  destruct (score_Extends t c) as (hs & Hs & He & _ & _).
  assert (Hx : 0 <= sumW hs)
    by (apply (@sumW_nonneg (extraTable t) hs (@extraTable_weights t) Hs)).
  assert (Hw' : 1.2 <= totalWeight (score t c)).
  { rewrite (Extends_weight He). lra. }
  assert (Hr' : matchedReasons (score t c) <> []).
  { rewrite (Extends_reasons He). intros E. apply app_eq_nil in E.
    tauto. }
  destruct (@analyzeContent_returns _ now t c Hc Hr') as [a Ha]; [lra|].
  exists a. split; [exact Ha|].
  apply analyzeContent_Some in Ha.
  destruct Ha as (_ & _ & _ & Ht & _).
  destruct (threatOf_spec (totalWeight (score t c)))
    as [[H1 E]|[(H1 & H2 & E)|[(H1 & H2 & E)|[H1 E]]]];
    rewrite E in Ht; try discriminate Ht; try lra;
    injection Ht as <-; discriminate.
Qed.

(** X14: for a random index number from 0 up to, not including, 1 the
    generator returns a content, and it is one of the samples of the
    content type and of the kind asked for; when no kind is asked for, the
    content is a fraudulent sample exactly when the coin is above 0.5. *)
Theorem X14_generator_returns (t : ContentType) (isFraudulent : option bool)
  (coin pick : Q) :
  0 <= pick -> pick < 1 ->
  exists c,
    generateRandomContent t isFraudulent coin pick = Some c
    /\ In c (renderedSamples t
               match isFraudulent with
               | Some b => b
               | None => negb (Qle_bool coin 0.5)
               end)
    /\ (isFraudulent = None ->
        (In c (renderedSamples t true) <-> 0.5 < coin)).
Proof.
  intros H0 H1.
  assert (Hsome : exists c,
             generateRandomContent t isFraudulent coin pick = Some c).
  { unfold generateRandomContent.
    set (fraudulent := match isFraudulent with
                       | Some b => b
                       | None => negb (Qle_bool coin 0.5)
                       end).
    destruct (samples_nonempty fraudulent) as (He & Hs & Hu).
    destruct t.
    - destruct (pick_element Hu H0 H1) as [x ->]. eexists; reflexivity.
    - destruct (pick_element He H0 H1) as [x ->]. eexists; reflexivity.
    - destruct (pick_element Hs H0 H1) as [x ->]. eexists; reflexivity. }
  destruct Hsome as [c Hc]. exists c. split; [exact Hc|].
  pose proof (generateRandomContent_In _ _ _ _ Hc) as Hin.
  split; [exact Hin|]. intros ->.
  destruct (Qle_bool coin 0.5) eqn:E; cbn [negb] in Hin.
  - split.
    + intros Ht. destruct (samples_disjoint t c Ht Hin).
    + intros Hq. apply Qle_bool_iff in E. lra.
  - split; [intros _; apply Qle_bool_false, E|intros _; exact Hin].
Qed.

(** X15: whatever the generator returns as a fraudulent sample, of any
    content type, is flagged by the enabled engine with a medium or high
    threat, on every platform: the patterns of its table alone reach a
    total weight of 1.2. *)
Theorem X15_fraudulent_samples_flagged (now : Stamp) (t : ContentType)
  (coin pick : Q) (c : jsstring) :
  generateRandomContent t (Some true) coin pick = Some c ->
  exists a, analyzeContent true now t c = Some a /\ threat a <> Low.
Proof.
  intros H. apply generateRandomContent_In in H.
  destruct (fraudulent_samples_rules t c H) as (H1 & H2 & H3).
  exact (rule_weight_flagged now t c H1 H2 H3).
Qed.

End Generator.

(* --------------------------------------------------------------------- *)
(** *** The further properties at concrete inputs *)

(** Names a result together with facts about it that evaluation settles. *)
Ltac settle := vm_compute; eexists; conjuncts; reflexivity.

Lemma X1_witness :
  exists a,
    analyzeContent true epoch Url (utf16 "https://x.y/login") = Some a
    /\ (1 <= List.length (reasons a) <= 10)%nat
    /\ content a = firstn 300 (utf16 "https://x.y/login")
    /\ idType (id a) = Url.
Proof.
  name_result a E.
  destruct (@X1_result_shape _ _ _ _ _ _ E)
    as (H1 & _ & _ & H4 & _ & _ & H7).
  split; [exact H1|split; [exact H4|exact H7]].
Defined.

Lemma X2_witness :
  let content :=
    utf16 "https://secure-bankoamerica.tk/login?verify=suspended&urgent=true" in
  truthy (trim content) = true
  /\ (3 <= List.length (matchedReasons (score Url content)))%nat
  /\ exists a, analyzeContent true epoch Url content = Some a.
Proof.
  cbv zeta.
  assert (Hc : truthy (trim (utf16 "https://secure-bankoamerica.tk/login?verify=suspended&urgent=true"))
               = true) by evaluate.
  assert (Hn : (3 <= List.length
                      (matchedReasons
                         (score Url (utf16 "https://secure-bankoamerica.tk/login?verify=suspended&urgent=true"))))%nat)
    by (vm_compute; lia).
  split; [exact Hc|split; [exact Hn|]].
  exact (proj2 (@X2_three_reasons_suffice _ epoch Url _) Hc Hn).
Defined.

Lemma X3_witness :
  exists a,
    analyzeContent true epoch Email
      (utf16 "Please unsubscribe me!!! I won $5") = Some a
    /\ threat a = Medium
    /\ 0.45 <= confidence a /\ confidence a < 49 # 60.
Proof.
  assert (H : exists r,
             analyzeContent true epoch Email
               (utf16 "Please unsubscribe me!!! I won $5") = Some r
             /\ threat r = Medium) by settle.
  destruct H as (a & E & Hm). exists a.
  split; [exact E|split; [exact Hm|]].
  exact (proj1 (proj2 (@X3_confidence_bands _ _ _ _ _ _ E)) Hm).
Defined.


Lemma X6_witness :
  let content := utf16 "HTTP://paypal.example.tk/login" in
  startsWith (toLowerCase content) (utf16 "https://") = false
  /\ isSafeContent Url content = false
  /\ totalWeight (score Url content)
     == ruleWeight Url content + extraWeight Url content.
Proof.
  cbv zeta.
  assert (H : startsWith
                (toLowerCase (utf16 "HTTP://paypal.example.tk/login"))
                (utf16 "https://") = false) by evaluate.
  destruct (@X6_safe_url_needs_https _ _ H) as (H1 & _ & H3).
  split; [exact H|split; [exact H1|exact H3]].
Defined.

Lemma X7_witness :
  let text := utf16 "URGENT: write to prize@lottery.com now" in
  (JS.length text <= 50)%nat
  /\ step true (NodeAdded text epoch) initial = initial.
Proof.
  cbv zeta.
  assert (H : (JS.length (utf16 "URGENT: write to prize@lottery.com now")
               <= 50)%nat) by (vm_compute; lia).
  split; [exact H|].
  pose proof (@X7_observer_filter _ true
                (utf16 "URGENT: write to prize@lottery.com now") epoch
                initial) as X.
  cbv zeta in X. destruct X as (_ & _ & _ & H4 & _).
  apply H4. right. left. exact H.
Defined.

Lemma X8_witness :
  let content := utf16 "bad url" in
  newURL (urlInput content) = None
  /\ extraReasons Url content = ["Malformed URL structure"]
  /\ In "Malformed URL structure" (matchedReasons (score Url content)).
Proof.
  cbv zeta.
  assert (H : newURL (urlInput (utf16 "bad url")) = None) by evaluate.
  pose proof (@X8_url_structure _ (utf16 "bad url")) as X.
  cbv zeta in X. destruct X as (_ & _ & H3 & H4).
  split; [exact H|split; [exact (proj1 (H4 H))|exact (proj2 H3 H)]].
Defined.


Lemma X12_witness :
  let es := [(true, ManualTest Sms (utf16 "You won a prize") epoch);
             (true, DismissPopup)] in
  existsb clears es = false
  /\ interceptedAttempts (run es initial)
     = List.length (fraudResults es []).
Proof.
  cbv zeta.
  assert (H : existsb clears
                [(true, ManualTest Sms (utf16 "You won a prize") epoch);
                 (true, DismissPopup)] = false) by reflexivity.
  split; [exact H|].
  exact (proj2 (proj2 (proj2 (@X12_reports _ _ []))) H).
Defined.


Lemma X14_witness :
  0 <= 0.5 /\ 0.5 < 1
  /\ exists c,
       generateRandomContent Url (Some true) 0 0.5 = Some c
       /\ In c (renderedSamples Url true).
Proof.
  assert (H0 : 0 <= 0.5) by lra.
  assert (H1 : 0.5 < 1) by lra.
  split; [exact H0|split; [exact H1|]].
  destruct (@X14_generator_returns Url (Some true) 0 0.5 H0 H1)
    as (c & Hc & Hin & _).
  exists c. split; assumption.
Defined.

Lemma X15_witness :
  exists c a,
    generateRandomContent Sms (Some true) 0 0.5 = Some c
    /\ analyzeContent true epoch Sms c = Some a
    /\ threat a <> Low.
Proof.
  assert (H : exists c,
             generateRandomContent Sms (Some true) 0 0.5 = Some c)
    by settle.
  destruct H as (c & Hc).
  destruct (@X15_fraudulent_samples_flagged _ epoch Sms 0 0.5 c Hc)
    as (a & Ha & Hl).
  exists c, a. split; [exact Hc|split; [exact Ha|exact Hl]].
Defined.


